(** * mosaic_ml.automl: the [AutoML] front end

    A shallow embedding of [src/mosaic_ml/automl.py].  The class [AutoML]
    is glue code: its constructor prepares an execution directory, a log
    file and a scoring function; [fit] loads a configuration space, builds
    an evaluation environment and a searcher, adapts the search space to
    the data set, runs the search and reads the best result back.

    Methods are functions in a state-and-exception monad.  The state is the
    part of the Python process and of the file system the module touches
    (the global numpy generator, directories and files, the [automl]
    logger) together with a ghost list of the calls made to collaborators
    that live in other modules ([pcs.read], [SklearnEnv], [SearchML],
    [SearchML.run]).  Those collaborators are parameters of the
    development. *)

From Stdlib Require Import ZArith QArith Ascii String.
From stdpp Require Import base option list strings gmap stringmap.

Local Open Scope string_scope.
Local Open Scope Z_scope.

(** ** Exceptions and outcomes *)

(** The classes of exception the module raises itself or lets through.
    [KeyboardInterrupt] stands for the [BaseException]s that a clause
    [except Exception] does not catch; [ForeignError] for an exception class
    defined by a collaborator. *)
Inductive exn : Type :=
| Exception (msg : string)
| TypeError (msg : string)
| AttributeError (msg : string)
| IndexError (msg : string)
| KeyError (key : string)
| FileExistsError (path : string)
| FileNotFoundError (path : string)
| ValueError (msg : string)
| ForeignError (cls msg : string)
| KeyboardInterrupt.

Definition is_Exception (e : exn) : bool :=
  match e with
  | KeyboardInterrupt => false
  | _ => true
  end.

Inductive outcome (A : Type) : Type :=
| Ok (a : A)
| Raise (e : exn).
Arguments Ok {A} a.
Arguments Raise {A} e.

#[global] Instance exn_eq_dec : EqDecision exn.
Proof. solve_decision. Defined.

#[global] Instance outcome_eq_dec {A} `{EqDecision A} : EqDecision (outcome A).
Proof. solve_decision. Defined.

(** ** Python values that cross the interface *)

Inductive metric : Type :=
| accuracy_score
| balanced_accuracy_score
| roc_auc_score.

(** A configuration: parameter name and the chosen value, as text. *)
Definition configuration : Type := list (string * string).

Inductive value : Type :=
| VNone
| VInt (n : Z)
| VFloat (q : Q)
| VStr (s : string)
| VBool (b : bool)
| VConfig (c : configuration).

(** What a caller may pass where an array is expected.  Cell contents are
    kept as integers: nothing in this module looks at them. *)
Inductive pyobj : Type :=
| PyNone
| ndarray (shape : list nat) (cells : list Z)
| spmatrix (nrows ncols : nat) (nonzero : list (nat * nat * Z))
| object0d (wrapped : pyobj).

(** [np.array]: an array is returned as it is, anything that is not a
    sequence is wrapped in a 0-dimensional object array. *)
Definition np_array (x : pyobj) : pyobj :=
  match x with
  | ndarray _ _ | object0d _ => x
  | PyNone | spmatrix _ _ _ => object0d x
  end.

Definition np_shape (x : pyobj) : list nat :=
  match x with
  | ndarray shape _ => shape
  | spmatrix r c _ => [r; c]
  | PyNone | object0d _ => []
  end.

(** [scipy.sparse.issparse] *)
Definition issparse (x : pyobj) : bool :=
  match x with
  | spmatrix _ _ _ => true
  | _ => false
  end.

Definition is_not_None (x : pyobj) : bool :=
  match x with
  | PyNone => false
  | _ => true
  end.

(** ** The process state *)

(** The global generator behind [np.random]: the seed it was last seeded
    with and how many draws were taken since. *)
Record rng_state : Type := RngState { rng_key : Z; rng_pos : N }.

Inductive handler : Type :=
| FileHandler (path : string)
| StreamHandler_stdout.

Inductive log_record : Type :=
| info_shapes (x_shape y_shape : list nat)
| info_categorical (indices : list nat)
| info_sparse
| info_dense.

(** The configuration space as [pcs.read] hands it over: the declarations
    of the definition file. *)
Definition ConfigurationSpace : Type := list string.

(** [partial(evaluate, X=.., y=.., score_func=.., ...)] *)
Record eval_closure : Type := {
  ev_X : pyobj;
  ev_y : pyobj;
  ev_score_func : metric;
  ev_categorical_features : list string;
  ev_seed : Z;
  ev_test_data : gmap string pyobj
}.

(** Keyword arguments of [SklearnEnv(...)] as written in [fit]. *)
Record env_kwargs : Type := {
  eval_func : eval_closure;
  config_space : ConfigurationSpace;
  mem_in_mb : Z;
  cpu_time_in_s : Z;
  env_seed : Z
}.

(** The attributes of an environment that this module reads or writes. *)
Record SklearnEnv : Type := {
  env_built_from : env_kwargs;
  bestconfig : gmap string value;
  problem_dependant_param : option (list string);
  problem_dependant_value : option (gmap string value)
}.

(** Keyword arguments of [SearchML(...)] as written in [fit]. *)
Record search_kwargs : Type := {
  environment : SklearnEnv;
  search_time_budget : Z;
  search_seed : Z;
  search_policy_arg : gmap string value;
  search_exec_dir : string;
  search_verbose : Z
}.

Record MCTS : Type := { env : SklearnEnv }.

Record SearchML : Type := {
  search_built_from : search_kwargs;
  mcts : MCTS
}.

(** Calls that leave the module, in program order.  [adapt_search_space_call]
    marks the entry of the method of that name; [run_returned] and
    [run_raised] mark the two ways [SearchML.run] can end. *)
Inductive call : Type :=
| pcs_read_call (path : string)
| SklearnEnv_call (kw : env_kwargs)
| SearchML_call (kw : search_kwargs)
| adapt_search_space_call
| run_call (nb_simulation : Z) (initial_configurations : list configuration)
| run_returned
| run_raised (e : exn).

(** The file system is the set of directories and the set of regular
    files, each entry under the name it was created with, and [resolve],
    the operating system's reading of a path in this process: the entry the
    path names or would name (its absolute, normalised name), or the
    exception with which the system refuses the path ([FileNotFoundError]
    for the empty path, a permission error, a parent that is a regular
    file).  Two paths name the same entry when they resolve to the same
    name: [run], [run/] and [./run] do.  The module never changes the
    working directory and only adds entries, new directories and the log
    file in each, so the reading is kept as the world is updated (a path
    that runs through one of those log files apart). *)
Record World : Type := {
  np_random : rng_state;
  dirs : gset string;
  files : gset string;
  resolve : string → outcome string;
  handlers : list handler;
  records : list log_record;
  calls : list call
}.

(** ** The monad *)

Definition M (S A : Type) : Type := S → outcome A * S.

Definition ret {S A} (a : A) : M S A := λ s, (Ok a, s).

Definition bind {S A B} (m : M S A) (k : A → M S B) : M S B :=
  λ s, match m s with
       | (Ok a, s') => k a s'
       | (Raise e, s') => (Raise e, s')
       end.

Definition raise {S A} (e : exn) : M S A := λ s, (Raise e, s).

Definition gets {S A} (f : S → A) : M S A := λ s, (Ok (f s), s).

Definition modify {S} (f : S → S) : M S unit := λ s, (Ok tt, f s).

(** [try: m except Exception as e: h e].  A [BaseException] passes. *)
Definition try_except_Exception {S A} (m : M S A) (h : exn → M S A) : M S A :=
  λ s, match m s with
       | (Ok a, s') => (Ok a, s')
       | (Raise e, s') => if is_Exception e then h e s' else (Raise e, s')
       end.

(** [try: m except: h], the bare clause, which catches everything. *)
Definition try_except {S A} (m : M S A) (h : M S A) : M S A :=
  λ s, match m s with
       | (Ok a, s') => (Ok a, s')
       | (Raise _, s') => h s'
       end.

Definition of_outcome {S A} (o : outcome A) : M S A := λ s, (o, s).

#[global] Instance M_ret {S} : MRet (M S) := λ A, @ret S A.
#[global] Instance M_bind {S} : MBind (M S) := λ A B k m, @bind S A B m k.

(** ** State updates on the world *)

Definition set_np_random (r : rng_state) (w : World) : World :=
  {| np_random := r; dirs := dirs w; files := files w;
     resolve := resolve w;
     handlers := handlers w; records := records w; calls := calls w |}.

Definition add_dirs (ds : gset string) (w : World) : World :=
  {| np_random := np_random w; dirs := ds ∪ dirs w; files := files w;
     resolve := resolve w;
     handlers := handlers w; records := records w; calls := calls w |}.

Definition add_file (p : string) (w : World) : World :=
  {| np_random := np_random w; dirs := dirs w; files := {[ p ]} ∪ files w;
     resolve := resolve w;
     handlers := handlers w; records := records w; calls := calls w |}.

Definition add_handler (h : handler) (w : World) : World :=
  {| np_random := np_random w; dirs := dirs w; files := files w;
     resolve := resolve w;
     handlers := handlers w ++ [h]; records := records w; calls := calls w |}.

Definition add_record (r : log_record) (w : World) : World :=
  {| np_random := np_random w; dirs := dirs w; files := files w;
     resolve := resolve w;
     handlers := handlers w; records := records w ++ [r]; calls := calls w |}.

Definition add_call (c : call) (w : World) : World :=
  {| np_random := np_random w; dirs := dirs w; files := files w;
     resolve := resolve w;
     handlers := handlers w; records := records w; calls := calls w ++ [c] |}.

(** ** Library calls made by the constructor *)

(** The seeds [np.random.seed] accepts. *)
Definition seed_in_range (seed : Z) : bool :=
  (0 <=? seed) && (seed <? 2 ^ 32).

(** [np.random.seed(seed)] *)
Definition np_random_seed (seed : Z) : M World unit :=
  if seed_in_range seed
  then modify (set_np_random {| rng_key := seed; rng_pos := 0 |})
  else raise (ValueError "Seed must be between 0 and 2**32 - 1").

Definition path_exists (p : string) (w : World) : bool :=
  bool_decide (p ∈ dirs w ∪ files w).

Definition ends_with_sep (s : string) : bool :=
  match last (String.list_ascii_of_string s) with
  | Some c => bool_decide (c = "/"%char)
  | None => false
  end.

(** [os.path.join(a, b)] on a POSIX system *)
Definition os_path_join (a b : string) : string :=
  match b with
  | String "/" _ => b
  | _ => if bool_decide (a = "") || ends_with_sep a then a +:+ b
         else a +:+ "/" +:+ b
  end.

(** The proper prefixes of a path that end just before a separator: the
    intermediate directories [os.makedirs] creates on the way. *)
Fixpoint ancestors_from (prefix : string) (rest : string) : list string :=
  match rest with
  | EmptyString => []
  | String c rest' =>
      let here := if bool_decide (c = "/"%char) && negb (bool_decide (prefix = ""))
                  then [prefix] else [] in
      here ++ ancestors_from (prefix +:+ String c EmptyString) rest'
  end.

Definition ancestors (p : string) : list string := ancestors_from "" p.

(** Some entry of the file system goes by the name [id]. *)
Definition occupied (id : string) (w : World) : bool :=
  bool_decide (set_Exists (λ q, resolve w q = Ok id) (dirs w ∪ files w)).

(** [os.makedirs(path)] with [exist_ok] left false.  A path the operating
    system refuses raises what the system says; a path that names an
    existing entry raises [FileExistsError]; otherwise the directory is
    created, with the intermediate directories on the way. *)
Definition os_makedirs (p : string) : M World unit :=
  λ w, match resolve w p with
       | Raise e => (Raise e, w)
       | Ok id =>
           if occupied id w then (Raise (FileExistsError p), w)
           else (Ok tt, add_dirs ({[ p ]} ∪ list_to_set (ancestors p)) w)
       end.

(** [tempfile.mkdtemp()]: a directory under a name not in use. *)
Definition tempfile_mkdtemp : M World string :=
  λ w, let d := fresh_string_of_set "/tmp/tmp" (dirs w ∪ files w) in
       (Ok d, add_dirs {[ d ]} w).

(** [logging.FileHandler(path, mode='w')] opens its file at once;
    [addHandler] then attaches it to the logger. *)
Definition add_FileHandler (p : string) : M World unit :=
  modify (λ w, add_handler (FileHandler p) (add_file p w)).

Definition add_StreamHandler : M World unit :=
  modify (add_handler StreamHandler_stdout).

Definition logger_info (r : log_record) : M World unit :=
  modify (add_record r).

Definition emit (c : call) : M World unit := modify (add_call c).

(** ** The class *)

Record AutoML : Type := {
  time_budget : Z;
  time_limit_for_evaluation : Z;
  memory_limit : Z;
  policy_arg : gmap string value;
  searcher : option SearchML;
  data_manager : pyobj;
  seed : Z;
  verbose : Z;
  exec_dir : string;
  mosaic_dir : string;
  scoring_func : metric;
  problem_dependant_parameter : option (list string)
}.

(** Arguments of [AutoML(...)], with the defaults of the signature. *)
Record init_args : Type := {
  arg_time_budget : Z;
  arg_time_limit_for_evaluation : Z;
  arg_memory_limit : Z;
  arg_scoring_func : string;
  arg_seed : Z;
  arg_data_manager : pyobj;
  arg_exec_dir : option string;
  arg_verbose : Z
}.

Definition default_init_args : init_args :=
  {| arg_time_budget := 3600;
     arg_time_limit_for_evaluation := 300;
     arg_memory_limit := 3024;
     arg_scoring_func := "roc_auc";
     arg_seed := 1;
     arg_data_manager := PyNone;
     arg_exec_dir := None;
     arg_verbose := 0 |}.

Definition unknown_score_message (name : string) : string :=
  "Score func " +:+ name +:+ " unknown".

Definition _set_scoring_func {S} (name : string) : M S metric :=
  if bool_decide (name = "balanced_accuracy") then mret balanced_accuracy_score
  else if bool_decide (name = "accuracy") then mret accuracy_score
  else if bool_decide (name = "roc_auc") then mret roc_auc_score
  else raise (Exception (unknown_score_message name)).

Definition initial_policy_arg : gmap string value :=
  <[ "policy_name" := VStr "puct" ]> (<[ "c" := VFloat (13 # 10) ]> ∅).

Definition __init__ (a : init_args) : M World AutoML :=
  np_random_seed (arg_seed a) ;;
  dir ← match arg_exec_dir a with
        | None => tempfile_mkdtemp
        | Some d => os_makedirs d ;; mret d
        end ;
  add_FileHandler (os_path_join dir "automl.log") ;;
  (if bool_decide (arg_verbose a = 0) then mret tt else add_StreamHandler) ;;
  sf ← _set_scoring_func (arg_scoring_func a) ;
  mret {| time_budget := arg_time_budget a;
          time_limit_for_evaluation := arg_time_limit_for_evaluation a;
          memory_limit := arg_memory_limit a;
          policy_arg := initial_policy_arg;
          searcher := None;
          data_manager := arg_data_manager a;
          seed := arg_seed a;
          verbose := arg_verbose a;
          exec_dir := dir;
          mosaic_dir := os_path_join dir "mosaic";
          scoring_func := sf;
          problem_dependant_parameter := None |}.

(** ** Methods: the state is the object and the world *)

Definition Proc : Type := AutoML * World.

Definition in_world {A} (m : M World A) : M Proc A :=
  λ '(self, w), let '(o, w') := m w in (o, (self, w')).

Definition get_self : M Proc AutoML := gets fst.

Definition set_searcher (s : SearchML) (self : AutoML) : AutoML :=
  {| time_budget := time_budget self;
     time_limit_for_evaluation := time_limit_for_evaluation self;
     memory_limit := memory_limit self;
     policy_arg := policy_arg self;
     searcher := Some s;
     data_manager := data_manager self;
     seed := seed self;
     verbose := verbose self;
     exec_dir := exec_dir self;
     mosaic_dir := mosaic_dir self;
     scoring_func := scoring_func self;
     problem_dependant_parameter := problem_dependant_parameter self |}.

Definition set_problem_dependant_parameter (l : list string) (self : AutoML) : AutoML :=
  {| time_budget := time_budget self;
     time_limit_for_evaluation := time_limit_for_evaluation self;
     memory_limit := memory_limit self;
     policy_arg := policy_arg self;
     searcher := searcher self;
     data_manager := data_manager self;
     seed := seed self;
     verbose := verbose self;
     exec_dir := exec_dir self;
     mosaic_dir := mosaic_dir self;
     scoring_func := scoring_func self;
     problem_dependant_parameter := Some l |}.

Definition with_env (f : SklearnEnv → SklearnEnv) (s : SearchML) : SearchML :=
  {| search_built_from := search_built_from s;
     mcts := {| env := f (env (mcts s)) |} |}.

Definition set_problem_dependant_param (l : list string) (e : SklearnEnv) : SklearnEnv :=
  {| env_built_from := env_built_from e;
     bestconfig := bestconfig e;
     problem_dependant_param := Some l;
     problem_dependant_value := problem_dependant_value e |}.

Definition set_problem_dependant_value (d : gmap string value) (e : SklearnEnv) : SklearnEnv :=
  {| env_built_from := env_built_from e;
     bestconfig := bestconfig e;
     problem_dependant_param := problem_dependant_param e;
     problem_dependant_value := Some d |}.

(** [self.searcher.mcts.env], read: [self.searcher] is [None] until [fit]
    has built the searcher. *)
Definition searcher_env : M Proc SklearnEnv :=
  self ← get_self ;
  match searcher self with
  | None => raise (AttributeError "'NoneType' object has no attribute 'mcts'")
  | Some s => mret (env (mcts s))
  end.

(** [self.searcher.mcts.env.<attribute> = ...] *)
Definition update_searcher_env (f : SklearnEnv → SklearnEnv) : M Proc unit :=
  self ← get_self ;
  match searcher self with
  | None => raise (AttributeError "'NoneType' object has no attribute 'mcts'")
  | Some s => modify (λ '(self, w), (set_searcher (with_env f s) self, w))
  end.

(** [np.shape(x)[1]] *)
Definition shape_1 {S} (x : pyobj) : M S nat :=
  match np_shape x !! 1%nat with
  | Some n => mret n
  | None => raise (IndexError "tuple index out of range")
  end.

(** [d[key]] on a dictionary *)
Definition getitem {S} (d : gmap string value) (key : string) : M S value :=
  match d !! key with
  | Some v => mret v
  | None => raise (KeyError key)
  end.

(** Attribute lookups on the module [os] that the source writes. *)
Definition os_getattr {S} (name : string) : M S unit :=
  if bool_decide (name = "path") then mret tt
  else raise (AttributeError ("module 'os' has no attribute '" +:+ name +:+ "'")).

(** [[i for i, x in enumerate(l) if x == "categorical"]] *)
Fixpoint categorical_indices (i : nat) (l : list string) : list nat :=
  match l with
  | [] => []
  | x :: l' => (if bool_decide (x = "categorical") then [i] else [])
               ++ categorical_indices (S i) l'
  end.

(** [nb_simulation] is [np.inf] unless the caller gives a number. *)
Inductive simulation_cap : Type :=
| np_inf
| finite (n : Z).

(** Arguments of the effective [fit]: the class body defines [fit] twice,
    and the second definition, with this signature, replaces the first. *)
Record fit_args : Type := {
  X : pyobj;
  y : pyobj;
  X_test : pyobj;
  y_test : pyobj;
  categorical_features : option (list string);
  initial_configurations : list configuration;
  nb_simulation : simulation_cap;
  fit_policy_arg : gmap string value
}.

Section Collaborators.

(** [os.path.dirname(os.path.abspath(__file__))] *)
Variable package_dir : string.
(** [pcs.read(open(path, "r"))] *)
Variable pcs_read : string → outcome ConfigurationSpace.
Variable SklearnEnv_new : env_kwargs → outcome SklearnEnv.
Variable SearchML_new : search_kwargs → outcome SearchML.
(** [OneHotEncoding.OneHotEncoder().fit_transform(X)] *)
Variable OneHotEncoder_fit_transform : pyobj → outcome pyobj.
(** [MultinomialNB().fit(X, y)] *)
Variable MultinomialNB_fit : pyobj → pyobj → outcome unit.
(** [searcher.run(nb_simulation=.., initial_configurations=..)]: it may
    change the searcher and draw from the global generator. *)
Variable SearchML_run :
  SearchML → rng_state → Z → list configuration →
  outcome unit * SearchML * rng_state.

Definition the_problem_dependant_parameter : list string :=
  [ "preprocessor:feature_agglomeration:n_clusters";
    "preprocessor:kernel_pca:n_components";
    "preprocessor:kitchen_sinks:n_components";
    "preprocessor:nystroem_sampler:n_components" ].

Definition adapt_search_space (X y : pyobj) : M Proc unit :=
  in_world (emit adapt_search_space_call) ;;
  modify (λ '(self, w),
    (set_problem_dependant_parameter the_problem_dependant_parameter self, w)) ;;
  '(nb_normal, nb_onehot_enc) ←
    try_except
      (n ← shape_1 X ;
       t ← of_outcome (OneHotEncoder_fit_transform X) ;
       m ← shape_1 t ;
       mret (n, m))
      (n ← shape_1 X ;
       m ← shape_1 X ;
       mret (n, m)) ;
  update_searcher_env (set_problem_dependant_param the_problem_dependant_parameter) ;;
  is_positive ←
    try_except
      (of_outcome (MultinomialNB_fit X y) ;; mret true)
      (mret false) ;
  update_searcher_env (set_problem_dependant_value
    (<[ "no_encoding" := VInt (Z.of_nat nb_normal) ]>
     (<[ "one_hot_encoding" := VInt (Z.of_nat nb_onehot_enc) ]>
      (<[ "is_positive" := VBool is_positive ]> ∅)))).

Definition get_config_space (X : pyobj) : M Proc ConfigurationSpace :=
  if issparse X then
    in_world (logger_info info_sparse) ;;
    os_getattr "path4" ;;
    let path := package_dir +:+ "/model_config/1_1.pcs" in
    in_world (emit (pcs_read_call path)) ;;
    of_outcome (pcs_read path)
  else
    in_world (logger_info info_dense) ;;
    os_getattr "path" ;;
    let path := package_dir +:+ "/model_config/1_0.pcs" in
    in_world (emit (pcs_read_call path)) ;;
    of_outcome (pcs_read path).

(** [self.searcher.run(...)]: the searcher and the generator are updated
    in place whether [run] returns or raises. *)
Definition searcher_run (nb : Z) (init : list configuration) : M Proc unit :=
  self ← get_self ;
  match searcher self with
  | None => raise (AttributeError "'NoneType' object has no attribute 'run'")
  | Some s =>
      in_world (emit (run_call nb init)) ;;
      r ← in_world (gets np_random) ;
      let '(o, s', r') := SearchML_run s r nb init in
      modify (λ '(self, w), (set_searcher s' self, set_np_random r' w)) ;;
      match o with
      | Ok _ => in_world (emit run_returned)
      | Raise e => in_world (emit (run_raised e)) ;; raise e
      end
  end.

Definition fit (a : fit_args) : M Proc (value * value) :=
  let X0 := np_array (X a) in
  let y0 := np_array (y a) in
  in_world (logger_info (info_shapes (np_shape X0) (np_shape y0))) ;;
  '(X_test0, y_test0) ←
    (if is_not_None (X_test a) then
       let X_test0 := np_array (X_test a) in
       let y_test0 := np_array (y_test a) in
       in_world (logger_info (info_shapes (np_shape X_test0) (np_shape y_test0))) ;;
       mret (X_test0, y_test0)
     else mret (X_test a, y_test a)) ;
  cf ← match categorical_features a with
       | None => raise (TypeError "'NoneType' object is not iterable")
       | Some cf => mret cf
       end ;
  in_world (logger_info (info_categorical (categorical_indices 0 cf))) ;;
  config_space ← get_config_space X0 ;
  self ← get_self ;
  let eval_func :=
    {| ev_X := X0; ev_y := y0; ev_score_func := scoring_func self;
       ev_categorical_features := cf; ev_seed := seed self;
       ev_test_data :=
         if is_not_None X_test0
         then <[ "X_test" := X_test0 ]> (<[ "y_test" := y_test0 ]> ∅)
         else ∅ |} in
  let env_kw :=
    {| eval_func := eval_func; config_space := config_space;
       mem_in_mb := memory_limit self;
       cpu_time_in_s := time_limit_for_evaluation self;
       env_seed := seed self |} in
  in_world (emit (SklearnEnv_call env_kw)) ;;
  environment ← of_outcome (SklearnEnv_new env_kw) ;
  let search_kw :=
    {| environment := environment;
       search_time_budget := time_budget self;
       search_seed := seed self;
       search_policy_arg := policy_arg self;
       search_exec_dir := mosaic_dir self;
       search_verbose := verbose self |} in
  in_world (emit (SearchML_call search_kw)) ;;
  s ← of_outcome (SearchML_new search_kw) ;
  modify (λ '(self, w), (set_searcher s self, w)) ;;
  adapt_search_space X0 y0 ;;
  try_except_Exception
    (searcher_run 100000000000 (initial_configurations a))
    (λ e, raise e) ;;
  e ← searcher_env ;
  model ← getitem (bestconfig e) "model" ;
  validation_score ← getitem (bestconfig e) "validation_score" ;
  mret (model, validation_score).

End Collaborators.

(** ** The remaining methods *)

(** [os.mkdir(path)]: the directory must be new.  The module calls it on
    [exec_dir/ensemble_files] only, a path it builds itself inside the
    directory the constructor set up; so the path is compared as written,
    and only this failure is modelled. *)
Definition os_mkdir (p : string) : M World unit :=
  λ w, if path_exists p w then (Raise (FileExistsError p), w)
       else (Ok tt, add_dirs {[ p ]} w).

(** [pynisher.enforce_limits(mem_in_mb=.., cpu_time_in_s=..)(test_function)]:
    the function of the evaluator module under the two limits. *)
Record limited_test_function : Type := {
  tf_mem_in_mb : Z;
  tf_cpu_time_in_s : Z
}.

(** Standard output, for the one method that prints. *)
Definition Console : Type := list string.

Definition in_proc {A} (m : M Proc A) : M (Proc * Console) A :=
  λ '(p, out), let '(o, p') := m p in (o, (p', out)).

Definition print (line : string) : M (Proc * Console) unit :=
  modify (λ '(p, out), (p, (out ++ [line])%list)).

(** [prepare_ensemble] sets an attribute the other methods never read and
    writes two arrays; the state it works on carries both beside the
    object and the world. *)
Record Ensemble : Type := {
  ens_proc : Proc;
  ensemble_dir : option string;
  npy_files : gmap string pyobj
}.

Definition set_ensemble_dir (d : string) (st : Ensemble) : Ensemble :=
  {| ens_proc := ens_proc st; ensemble_dir := Some d;
     npy_files := npy_files st |}.

Definition in_ensemble_world {A} (m : M World A) : M Ensemble A :=
  λ st, let '(self, w) := ens_proc st in
        let '(o, w') := m w in
        (o, {| ens_proc := (self, w'); ensemble_dir := ensemble_dir st;
               npy_files := npy_files st |}).

(** [np.save(path, array)] *)
Definition np_save (p : string) (array : pyobj) : M Ensemble unit :=
  modify (λ st, let '(self, w) := ens_proc st in
                {| ens_proc := (self, add_file p w);
                   ensemble_dir := ensemble_dir st;
                   npy_files := <[ p := array ]> (npy_files st) |}).

Section OtherMethods.

(** What [SearchML.get_history_run] and [SearchML.test_performance] hand
    back. *)
Variable History : Type.
Variable TestResult : Type.
Variable SearchML_get_history_run : SearchML → outcome History * SearchML.
Variable SearchML_test_performance :
  SearchML → pyobj → pyobj → pyobj → pyobj → limited_test_function →
  option (list string) → outcome TestResult * SearchML.
(** [train_test_split(X, y, test_size=.., random_state=..)] *)
Variable train_test_split :
  pyobj → pyobj → Q → Z → outcome (pyobj * pyobj * pyobj * pyobj).

Definition get_run_history : M Proc History :=
  self ← get_self ;
  match searcher self with
  | None =>
      raise (AttributeError "'NoneType' object has no attribute 'get_history_run'")
  | Some s =>
      let '(o, s') := SearchML_get_history_run s in
      modify (λ '(self, w), (set_searcher s' self, w)) ;;
      of_outcome o
  end.

(** The class body defines [get_test_performance] twice, with the same
    text. *)
Definition get_test_performance (X y : pyobj)
    (categorical_features : option (list string)) (X_test y_test : pyobj)
    : M (Proc * Console) TestResult :=
  self ← in_proc get_self ;
  let test_func :=
    {| tf_mem_in_mb := memory_limit self;
       tf_cpu_time_in_s := time_limit_for_evaluation self * 3 |} in
  print "Get test performance ..." ;;
  match searcher self with
  | None =>
      raise (AttributeError "'NoneType' object has no attribute 'test_performance'")
  | Some s =>
      let '(o, s') :=
        SearchML_test_performance s X y X_test y_test test_func
          categorical_features in
      in_proc (modify (λ '(self, w), (set_searcher s' self, w))) ;;
      of_outcome o
  end.

Definition prepare_ensemble (X y : pyobj) : M Ensemble unit :=
  self ← gets (λ st, (ens_proc st).1) ;
  let dir := os_path_join (exec_dir self) "ensemble_files" in
  modify (set_ensemble_dir dir) ;;
  try_except_Exception (in_ensemble_world (os_mkdir dir)) (λ e, raise e) ;;
  parts ← of_outcome (train_test_split X y (329 # 1000)%Q (seed self)) ;
  let '(_, _, y_train, y_test) := parts in
  np_save (os_path_join dir "y_valid.npy") y_test ;;
  np_save (os_path_join dir "y_test.npy") y.

End OtherMethods.

(** * Properties *)

(** ** Vocabulary for the statements *)

Local Open Scope list_scope.

(** The three names [_set_scoring_func] knows. *)
Definition legal_scoring_name (name : string) : Prop :=
  name = "accuracy" ∨ name = "balanced_accuracy" ∨ name = "roc_auc".

(** Where the constructor puts the run log. *)
Definition log_path (dir : string) : string := os_path_join dir "automl.log".

(** The part of an object that [fit] reads and never writes. *)
Definition settings (self : AutoML) :=
  (time_budget self, time_limit_for_evaluation self, memory_limit self,
   policy_arg self, data_manager self, seed self, verbose self,
   exec_dir self, mosaic_dir self, scoring_func self).

(** The calls a run of a method added to the trace. *)
Definition new_calls (w w' : World) : list call :=
  drop (length (calls w)) (calls w').

(** The return statement of [fit], as a function of the best-result slot. *)
Definition best_pair (d : gmap string value) : outcome (value * value) :=
  match d !! "model" with
  | None => Raise (KeyError "model")
  | Some m =>
      match d !! "validation_score" with
      | None => Raise (KeyError "validation_score")
      | Some v => Ok (m, v)
      end
  end.


(** The test split as [fit] hands it on. *)
Definition prepared_test (a : fit_args) : pyobj * pyobj :=
  if is_not_None (X_test a) then (np_array (X_test a), np_array (y_test a))
  else (X_test a, y_test a).

(** The keyword arguments [fit] builds for [SklearnEnv] and [SearchML]. *)
Definition env_kwargs_of (self : AutoML) (a : fit_args)
    (cf : list string) (cs : ConfigurationSpace) : env_kwargs :=
  {| eval_func :=
       {| ev_X := np_array (X a); ev_y := np_array (y a);
          ev_score_func := scoring_func self;
          ev_categorical_features := cf; ev_seed := seed self;
          ev_test_data :=
            if is_not_None (prepared_test a).1
            then <[ "X_test" := (prepared_test a).1 ]>
                   (<[ "y_test" := (prepared_test a).2 ]> ∅)
            else ∅ |};
     config_space := cs;
     mem_in_mb := memory_limit self;
     cpu_time_in_s := time_limit_for_evaluation self;
     env_seed := seed self |}.

Definition search_kwargs_of (self : AutoML) (e : SklearnEnv) : search_kwargs :=
  {| environment := e;
     search_time_budget := time_budget self;
     search_seed := seed self;
     search_policy_arg := policy_arg self;
     search_exec_dir := mosaic_dir self;
     search_verbose := verbose self |}.

(** The constructor's choices, for its closed form. *)
Definition init_dir (a : init_args) (w : World) : string :=
  match arg_exec_dir a with
  | Some d => d
  | None => fresh_string_of_set "/tmp/tmp" (dirs w ∪ files w)
  end.

(** A path names an entry that exists; a path can be given to
    [os.makedirs]. *)
Definition names_existing (p : string) (w : World) : Prop :=
  ∃ id, resolve w p = Ok id ∧ occupied id w = true.

Definition can_create (p : string) (w : World) : Prop :=
  ∃ id, resolve w p = Ok id ∧ occupied id w = false.

(** The exception of [os.makedirs], if it raises. *)
Definition makedirs_error (p : string) (w : World) : option exn :=
  match resolve w p with
  | Raise e => Some e
  | Ok id => if occupied id w then Some (FileExistsError p) else None
  end.

Definition seed_error : exn :=
  ValueError "Seed must be between 0 and 2**32 - 1".

(** What stops the constructor before it opens the log file, if anything. *)
Definition init_error (a : init_args) (w : World) : option exn :=
  if seed_in_range (arg_seed a) then
    match arg_exec_dir a with
    | Some d => makedirs_error d w
    | None => None
    end
  else Some seed_error.

Definition init_new_dirs (a : init_args) (w : World) : gset string :=
  match arg_exec_dir a with
  | Some d => {[ d ]} ∪ list_to_set (ancestors d)
  | None => {[ init_dir a w ]}
  end.

Definition after_dir_setup (a : init_args) (dir : string) (w : World) : World :=
  let w1 := add_handler (FileHandler (log_path dir)) (add_file (log_path dir) w) in
  if bool_decide (arg_verbose a = 0) then w1
  else add_handler StreamHandler_stdout w1.

Definition init_world (a : init_args) (w : World) : World :=
  after_dir_setup a (init_dir a w)
    (add_dirs (init_new_dirs a w)
       (set_np_random {| rng_key := arg_seed a; rng_pos := 0 |} w)).

Definition init_object (a : init_args) (dir : string) (sf : metric) : AutoML :=
  {| time_budget := arg_time_budget a;
     time_limit_for_evaluation := arg_time_limit_for_evaluation a;
     memory_limit := arg_memory_limit a;
     policy_arg := initial_policy_arg;
     searcher := None;
     data_manager := arg_data_manager a;
     seed := arg_seed a;
     verbose := arg_verbose a;
     exec_dir := dir;
     mosaic_dir := os_path_join dir "mosaic";
     scoring_func := sf;
     problem_dependant_parameter := None |}.


(** ** A concrete set of collaborators and inputs

    Used to run the model on examples: a definition file with one
    declaration, an environment whose best-result slot starts empty-handed,
    a searcher that keeps the environment it is given, and two searches, one
    that finds a configuration and returns, one that finds the same
    configuration and is then aborted. *)

Module Demo.

Definition package_dir : string := "/opt/mosaic_ml".

Definition pcs_read (path : string) : outcome ConfigurationSpace :=
  Ok ["classifier categorical {tree, linear} [tree]"].

Definition initial_bestconfig : gmap string value :=
  <[ "validation_score" := VInt 0 ]> (<[ "model" := VNone ]> ∅).

Definition SklearnEnv_new (kw : env_kwargs) : outcome SklearnEnv :=
  Ok {| env_built_from := kw; bestconfig := initial_bestconfig;
        problem_dependant_param := None; problem_dependant_value := None |}.

Definition SearchML_new (kw : search_kwargs) : outcome SearchML :=
  Ok {| search_built_from := kw; mcts := {| env := environment kw |} |}.

Definition OneHotEncoder_fit_transform (x : pyobj) : outcome pyobj := Ok x.

Definition MultinomialNB_fit (x y : pyobj) : outcome unit := Ok tt.

Definition set_bestconfig (d : gmap string value) (e : SklearnEnv) : SklearnEnv :=
  {| env_built_from := env_built_from e; bestconfig := d;
     problem_dependant_param := problem_dependant_param e;
     problem_dependant_value := problem_dependant_value e |}.

Definition tree_config : value := VConfig [("classifier", "tree")].

Definition found : gmap string value :=
  <[ "validation_score" := VFloat (9 # 10) ]> (<[ "model" := tree_config ]> ∅).

Definition SearchML_run (s : SearchML) (r : rng_state) (nb : Z)
    (init : list configuration) : outcome unit * SearchML * rng_state :=
  (Ok tt, with_env (set_bestconfig found) s,
   {| rng_key := rng_key r; rng_pos := rng_pos r + 5 |}).

Definition search_aborted : exn :=
  ForeignError "SearchAbortedError" "cancelled".

Definition SearchML_run_aborted (s : SearchML) (r : rng_state) (nb : Z)
    (init : list configuration) : outcome unit * SearchML * rng_state :=
  (Raise search_aborted, with_env (set_bestconfig found) s,
   {| rng_key := rng_key r; rng_pos := rng_pos r + 5 |}).




Definition fit_found : fit_args → M Proc (value * value) :=
  fit package_dir pcs_read SklearnEnv_new SearchML_new
    OneHotEncoder_fit_transform MultinomialNB_fit SearchML_run.

Definition fit_aborted : fit_args → M Proc (value * value) :=
  fit package_dir pcs_read SklearnEnv_new SearchML_new
    OneHotEncoder_fit_transform MultinomialNB_fit SearchML_run_aborted.

(** Path names as a POSIX system reads them in a process whose working
    directory is [/home/user]: the empty path names nothing, empty
    components and [.] are skipped, [..] steps back. *)
Fixpoint components (current : string) (path : string) : list string :=
  match path with
  | EmptyString => [current]
  | String c rest =>
      if bool_decide (c = "/"%char) then current :: components "" rest
      else components (current +:+ String c EmptyString) rest
  end.

Definition walk (stack : list string) (component : string) : list string :=
  if bool_decide (component = "") || bool_decide (component = ".") then stack
  else if bool_decide (component = "..") then removelast stack
  else stack ++ [component].

Definition posix_resolve (path : string) : outcome string :=
  match path with
  | EmptyString => Raise (FileNotFoundError "")
  | String c _ =>
      let start := if bool_decide (c = "/"%char) then [] else ["home"; "user"] in
      match fold_left walk (components "" path) start with
      | [] => Ok "/"
      | stack =>
          Ok (fold_left (λ name component, name +:+ "/" +:+ component) stack "")
      end
  end.

(** The directories every such process finds. *)
Definition standing_dirs : gset string :=
  {[ "/"; "/tmp"; "/home"; "/home/user" ]}.

(** A process in which a directory [run] exists already. *)
Definition world0 : World :=
  {| np_random := {| rng_key := 7; rng_pos := 3 |};
     dirs := {[ "run" ]} ∪ standing_dirs; files := ∅;
     resolve := posix_resolve;
     handlers := []; records := []; calls := [] |}.

(** The same process with another generator state and another file. *)
Definition world0' : World :=
  {| np_random := {| rng_key := 99; rng_pos := 0 |};
     dirs := {[ "run" ]} ∪ standing_dirs; files := {[ "notes.txt" ]};
     resolve := posix_resolve;
     handlers := [StreamHandler_stdout]; records := [info_dense]; calls := [] |}.

Definition with_exec_dir (d : string) (name : string) : init_args :=
  {| arg_time_budget := 360;
     arg_time_limit_for_evaluation := 100;
     arg_memory_limit := 3024;
     arg_scoring_func := name;
     arg_seed := 1;
     arg_data_manager := PyNone;
     arg_exec_dir := Some d;
     arg_verbose := 1 |}.

(** The default arguments with another seed. *)
Definition with_seed (seed : Z) : init_args :=
  {| arg_time_budget := 3600;
     arg_time_limit_for_evaluation := 300;
     arg_memory_limit := 3024;
     arg_scoring_func := "roc_auc";
     arg_seed := seed;
     arg_data_manager := PyNone;
     arg_exec_dir := None;
     arg_verbose := 0 |}.

Definition self0 : AutoML :=
  init_object default_init_args "/tmp/tmp" roc_auc_score.

Definition world1 : World := (__init__ default_init_args world0).2.

(** Two features, the second categorical; the caller asks for ten
    simulations. *)
Definition args0 : fit_args :=
  {| X := ndarray [2; 2]%nat [1; 2; 3; 4];
     y := ndarray [2]%nat [0; 1];
     X_test := PyNone;
     y_test := PyNone;
     categorical_features := Some ["numerical"; "categorical"];
     initial_configurations := [];
     nb_simulation := finite 10;
     fit_policy_arg := ∅ |}.

(** The same call with [categorical_features] left out. *)
Definition args_default_categorical : fit_args :=
  {| X := X args0; y := y args0; X_test := PyNone; y_test := PyNone;
     categorical_features := None;
     initial_configurations := [];
     nb_simulation := np_inf;
     fit_policy_arg := ∅ |}.

Definition ran : outcome (value * value) * Proc := fit_found args0 (self0, world1).

Definition ran_aborted : outcome (value * value) * Proc :=
  fit_aborted args0 (self0, world1).

End Demo.


(** ** More concrete inputs *)

Module More.

(** A call of [fit] on a sparse matrix, with labels for a test split but no
    test data, and a policy of the caller's own. *)
Definition sparse_args : fit_args :=
  {| X := spmatrix 2 2 [(0%nat, 0%nat, 1); (1%nat, 1%nat, 1)];
     y := ndarray [2]%nat [0; 1];
     X_test := PyNone;
     y_test := ndarray [1]%nat [1];
     categorical_features := Some ["numerical"; "categorical"];
     initial_configurations := [];
     nb_simulation := np_inf;
     fit_policy_arg := <[ "policy_name" := VStr "uct" ]> ∅ |}.

Definition ran_sparse : outcome (value * value) * Proc :=
  Demo.fit_found sparse_args (Demo.self0, Demo.world1).

(** A searcher as [Demo] builds it, and an object that holds it. *)
Definition environment0 : SklearnEnv :=
  {| env_built_from :=
       env_kwargs_of Demo.self0 Demo.args0 ["numerical"; "categorical"]
         ["classifier categorical {tree, linear} [tree]"];
     bestconfig := Demo.found;
     problem_dependant_param := None;
     problem_dependant_value := None |}.

Definition searcher0 : SearchML :=
  {| search_built_from := search_kwargs_of Demo.self0 environment0;
     mcts := {| env := environment0 |} |}.

Definition self_with_searcher : AutoML := set_searcher searcher0 Demo.self0.

(** An encoder that doubles the columns, a naive Bayes fit that refuses. *)
Definition OneHotEncoder_fit_transform (x : pyobj) : outcome pyobj :=
  match x with
  | ndarray [r; c] cells => Ok (ndarray [r; c + c]%nat (cells ++ cells))
  | _ => Raise (ForeignError "ValueError" "expected 2D array")
  end.

Definition MultinomialNB_fit (x y : pyobj) : outcome unit :=
  Raise (ForeignError "ValueError" "Negative values in data").

Definition History : Type := list (configuration * Q).

Definition SearchML_get_history_run (s : SearchML) : outcome History * SearchML :=
  (Ok [([("classifier", "tree")], (9 # 10)%Q)], s).

(** A test that reports the limits it runs under. *)
Definition SearchML_test_performance (s : SearchML) (x y x_test y_test : pyobj)
    (f : limited_test_function) (cf : option (list string))
    : outcome (Z * Z) * SearchML :=
  (Ok (tf_mem_in_mb f, tf_cpu_time_in_s f), s).

Definition train_test_split (x y : pyobj) (test_size : Q) (random_state : Z)
    : outcome (pyobj * pyobj * pyobj * pyobj) :=
  Ok (x, x, y, ndarray [1]%nat [1]).

Definition ensemble0 : Ensemble :=
  {| ens_proc := (Demo.self0, Demo.world1);
     ensemble_dir := None;
     npy_files := ∅ |}.

(** The searcher the object of [Demo] holds after its run. *)
Definition fitted_searcher : SearchML :=
  default searcher0 (searcher Demo.ran.2.1).

Definition second : init_args := default_init_args.

End More.

Ltac monad_simpl :=
  cbv beta iota zeta delta
    [bind mbind M_bind ret mret M_ret raise gets modify of_outcome in_world
     get_self try_except try_except_Exception fst snd emit logger_info].

Ltac solve_calls :=
  cbn [calls add_call add_record set_np_random add_dirs add_file add_handler];
  rewrite <- ?app_assoc; cbn [app]; reflexivity.


(** ** The constructor *)

Lemma set_scoring_func_ok {S} name (s : S) :
  legal_scoring_name name →
  ∃ sf, _set_scoring_func name s = (Ok sf, s) ∧
        (name = "accuracy" → sf = accuracy_score) ∧
        (name = "balanced_accuracy" → sf = balanced_accuracy_score) ∧
        (name = "roc_auc" → sf = roc_auc_score).
Proof.
  intros [-> | [-> | ->]]; eexists; (split; [reflexivity|]);
    repeat split; intros; congruence.
Qed.

Lemma set_scoring_func_unknown {S} name (s : S) :
  ¬ legal_scoring_name name →
  _set_scoring_func name s = (Raise (Exception (unknown_score_message name)), s).
Proof.
  intros H. unfold _set_scoring_func, legal_scoring_name in *.
  repeat case_bool_decide; first [tauto | reflexivity].
Qed.

Lemma set_scoring_func_state {S} name (s : S) :
  (_set_scoring_func name s).2 = s.
Proof. unfold _set_scoring_func. repeat case_bool_decide; reflexivity. Qed.

Lemma seed_in_range_spec z : seed_in_range z = true ↔ 0 ≤ z < 2 ^ 32.
Proof. unfold seed_in_range. lia. Qed.

Lemma names_existing_error p w :
  names_existing p w → makedirs_error p w = Some (FileExistsError p).
Proof.
  unfold names_existing, makedirs_error. by intros (id & -> & ->).
Qed.

Lemma can_create_no_error p w :
  can_create p w ↔ makedirs_error p w = None.
Proof.
  unfold can_create, makedirs_error. split.
  - by intros (id & -> & ->).
  - destruct (resolve w p) as [id|e]; [|done].
    destruct (occupied id w) eqn:Ho; [done|]. intros _. by exists id.
Qed.

Lemma can_create_not_existing p w : can_create p w → ¬ names_existing p w.
Proof.
  intros (id & Hr & Ho) (id' & Hr' & Ho'). congruence.
Qed.

Lemma makedirs_eq p w :
  os_makedirs p w =
  match makedirs_error p w with
  | Some e => (Raise e, w)
  | None => (Ok tt, add_dirs ({[ p ]} ∪ list_to_set (ancestors p)) w)
  end.
Proof.
  unfold os_makedirs, makedirs_error.
  destruct (resolve w p) as [id|e]; [|reflexivity].
  by destruct (occupied id w).
Qed.

Lemma makedirs_error_set_np_random p r w :
  makedirs_error p (set_np_random r w) = makedirs_error p w.
Proof. reflexivity. Qed.

(** The constructor in closed form: it stops in [np.random.seed] on a seed
    out of range, with nothing done; it stops in [os.makedirs] when the
    directory asked for cannot be created, with the generator seeded; and
    otherwise it gets as far as the choice of the scoring function. *)
Lemma init_eq a w :
  __init__ a w =
  if seed_in_range (arg_seed a) then
    let w0 := set_np_random {| rng_key := arg_seed a; rng_pos := 0 |} w in
    match init_error a w with
    | Some e => (Raise e, w0)
    | None =>
        let w1 := init_world a w in
        match _set_scoring_func (arg_scoring_func a) w1 with
        | (Ok sf, _) => (Ok (init_object a (init_dir a w) sf), w1)
        | (Raise e, _) => (Raise e, w1)
        end
    end
  else (Raise seed_error, w).
Proof.
  unfold __init__, init_error, init_world, after_dir_setup, log_path,
    init_new_dirs, init_dir, np_random_seed, seed_error, tempfile_mkdtemp,
    add_FileHandler, add_StreamHandler.
  destruct (seed_in_range (arg_seed a)); [|reflexivity].
  destruct (arg_exec_dir a) as [d|]; monad_simpl.
  - rewrite makedirs_eq, makedirs_error_set_np_random.
    destruct (makedirs_error d w); [reflexivity|]. monad_simpl.
    destruct (bool_decide (arg_verbose a = 0)); monad_simpl;
      destruct (_set_scoring_func _ _) as [[sf|e] w2] eqn:E;
      (match type of E with _set_scoring_func ?n ?s = _ =>
         pose proof (set_scoring_func_state n s) as Hst; rewrite E in Hst
       end);
      cbn [snd] in Hst; subst w2; reflexivity.
  - destruct (bool_decide (arg_verbose a = 0)); monad_simpl;
      destruct (_set_scoring_func _ _) as [[sf|e] w2] eqn:E;
      (match type of E with _set_scoring_func ?n ?s = _ =>
         pose proof (set_scoring_func_state n s) as Hst; rewrite E in Hst
       end);
      cbn [snd] in Hst; subst w2; reflexivity.
Qed.

Lemma init_error_seed a w :
  seed_in_range (arg_seed a) = false → init_error a w = Some seed_error.
Proof. unfold init_error. by intros ->. Qed.

Lemma init_error_none a w :
  seed_in_range (arg_seed a) = true →
  (∀ d, arg_exec_dir a = Some d → can_create d w) →
  init_error a w = None.
Proof.
  unfold init_error. intros -> H.
  destruct (arg_exec_dir a) as [d|]; [|reflexivity].
  by apply can_create_no_error, H.
Qed.

Lemma init_error_none_inv a w :
  init_error a w = None →
  seed_in_range (arg_seed a) = true ∧
  (∀ d, arg_exec_dir a = Some d → can_create d w).
Proof.
  unfold init_error. destruct (seed_in_range (arg_seed a)); [|done].
  intros H. split; [done|]. intros d Hd. rewrite Hd in H.
  by apply can_create_no_error.
Qed.

(** The seed is checked first: out of range, nothing at all has happened. *)
Lemma init_bad_seed a w :
  seed_in_range (arg_seed a) = false → __init__ a w = (Raise seed_error, w).
Proof. intros Hs. rewrite init_eq. by rewrite Hs. Qed.

Lemma init_world_calls a w : calls (init_world a w) = calls w.
Proof.
  unfold init_world, after_dir_setup. by case_bool_decide.
Qed.

Lemma init_world_np_random a w :
  np_random (init_world a w) = {| rng_key := arg_seed a; rng_pos := 0 |}.
Proof.
  unfold init_world, after_dir_setup. by case_bool_decide.
Qed.

Lemma init_world_dirs a w :
  dirs (init_world a w) = init_new_dirs a w ∪ dirs w.
Proof.
  unfold init_world, after_dir_setup. by case_bool_decide.
Qed.

Lemma init_world_files a w :
  files (init_world a w) = {[ log_path (init_dir a w) ]} ∪ files w.
Proof.
  unfold init_world, after_dir_setup. by case_bool_decide.
Qed.

Lemma init_world_handlers a w :
  FileHandler (log_path (init_dir a w)) ∈ handlers (init_world a w).
Proof.
  unfold init_world, after_dir_setup.
  case_bool_decide; cbn [handlers add_handler]; set_solver.
Qed.

Lemma init_dir_in_new_dirs a w : init_dir a w ∈ init_new_dirs a w.
Proof.
  unfold init_new_dirs, init_dir. destruct (arg_exec_dir a); set_solver.
Qed.

Lemma mkdtemp_name_fresh w :
  path_exists (fresh_string_of_set "/tmp/tmp" (dirs w ∪ files w)) w = false.
Proof.
  unfold path_exists. apply bool_decide_eq_false, fresh_string_of_set_fresh.
Qed.

(** When the seed is accepted and the directory can be set up the
    constructor ends in [_set_scoring_func], and that decides the
    outcome. *)
Lemma init_unblocked a w :
  init_error a w = None →
  (__init__ a w).2 = init_world a w ∧
  (legal_scoring_name (arg_scoring_func a) →
   ∃ sf, (__init__ a w).1 = Ok (init_object a (init_dir a w) sf) ∧
         (arg_scoring_func a = "accuracy" → sf = accuracy_score) ∧
         (arg_scoring_func a = "balanced_accuracy" → sf = balanced_accuracy_score) ∧
         (arg_scoring_func a = "roc_auc" → sf = roc_auc_score)) ∧
  (¬ legal_scoring_name (arg_scoring_func a) →
   (__init__ a w).1 =
   Raise (Exception (unknown_score_message (arg_scoring_func a)))).
Proof.
  intros Hb. destruct (init_error_none_inv _ _ Hb) as [Hs _].
  rewrite init_eq. cbv zeta. rewrite Hs, Hb.
  split; [|split].
  - by destruct (_set_scoring_func _ _) as [[sf|e] w2].
  - intros Hl.
    destruct (set_scoring_func_ok _ (init_world a w) Hl) as (sf & -> & H).
    by exists sf.
  - intros Hl. by rewrite (set_scoring_func_unknown _ _ Hl).
Qed.


Lemma init_ok_inv a w self :
  (__init__ a w).1 = Ok self →
  init_error a w = None ∧ (__init__ a w).2 = init_world a w ∧
  ∃ sf, self = init_object a (init_dir a w) sf.
Proof.
  intros H. pose proof H as H'. rewrite init_eq in H'. cbv zeta in H'.
  destruct (seed_in_range (arg_seed a)) eqn:Hs; [|done].
  destruct (init_error a w) eqn:Hb; [done|].
  split; [done|]. split; [by apply init_unblocked|].
  destruct (_set_scoring_func _ _) as [[sf|e] w2]; [|done].
  exists sf. by injection H'.
Qed.

(** C10, as amended: a seed outside 0..2**32-1 makes the constructor raise
    [ValueError] in [np.random.seed] before any directory is looked at, and
    nothing has changed.  With a seed in that range: given an explicit
    [exec_dir] that names an existing entry (under whatever spelling) the
    constructor fails with the [FileExistsError] of [os.makedirs]; when it
    succeeds the path could be created, the directory has been created by
    it and holds the run log [automl.log].  With [exec_dir] omitted a
    temporary directory under a name not in use is created and holds the
    log; the constructor can then fail only on the name of the scoring
    function. *)
Theorem init_exec_dir a w :
  let o := (__init__ a w).1 in
  let w' := (__init__ a w).2 in
  (seed_in_range (arg_seed a) = false →
     o = Raise (ValueError "Seed must be between 0 and 2**32 - 1") ∧ w' = w) ∧
  (seed_in_range (arg_seed a) = true →
   (∀ d, arg_exec_dir a = Some d →
      (names_existing d w → o = Raise (FileExistsError d)) ∧
      (∀ self, o = Ok self →
         can_create d w ∧ exec_dir self = d ∧ d ∈ dirs w' ∧
         log_path d ∈ files w' ∧ FileHandler (log_path d) ∈ handlers w')) ∧
   (arg_exec_dir a = None →
      ∃ d, path_exists d w = false ∧ d ∈ dirs w' ∧
           log_path d ∈ files w' ∧ FileHandler (log_path d) ∈ handlers w' ∧
           ((∃ self, o = Ok self ∧ exec_dir self = d) ∨
            (¬ legal_scoring_name (arg_scoring_func a) ∧
             o = Raise (Exception (unknown_score_message (arg_scoring_func a))))))).
Proof.
  intros o w'. subst o w'. split.
  { intros Hs. by rewrite (init_bad_seed _ _ Hs). }
  intros Hs. split.
  - intros d Hd. split.
    + intros He. rewrite init_eq. cbv zeta.
      unfold init_error. by rewrite Hs, Hd, (names_existing_error _ _ He).
    + intros self Hok.
      destruct (init_ok_inv _ _ _ Hok) as (Hb & -> & sf & ->).
      assert (init_dir a w = d) as Hdir by (unfold init_dir; by rewrite Hd).
      destruct (init_error_none_inv _ _ Hb) as [_ Hc].
      rewrite init_world_dirs, init_world_files.
      pose proof (init_dir_in_new_dirs a w) as Hin.
      pose proof (init_world_handlers a w) as Hh.
      rewrite Hdir in *.
      repeat split; [by apply Hc | set_solver | set_solver | done].
  - intros Hn.
    assert (init_error a w = None) as Hb
      by (apply init_error_none; [done | intros d Hd; congruence]).
    destruct (init_unblocked a w Hb) as (-> & Hlegal & Hunk).
    exists (init_dir a w).
    rewrite init_world_dirs, init_world_files.
    pose proof (init_dir_in_new_dirs a w) as Hin.
    pose proof (init_world_handlers a w) as Hh.
    split; [unfold init_dir; rewrite Hn; apply mkdtemp_name_fresh|].
    split; [set_solver|]. split; [set_solver|]. split; [done|].
    destruct (decide (arg_scoring_func a = "accuracy"));
      [| destruct (decide (arg_scoring_func a = "balanced_accuracy"));
         [| destruct (decide (arg_scoring_func a = "roc_auc")) ] ].
    4: { right. assert (¬ legal_scoring_name (arg_scoring_func a)) as Hl
           by (unfold legal_scoring_name; tauto). split; [done | by apply Hunk]. }
    all: left; destruct Hlegal as (sf & -> & _);
      [unfold legal_scoring_name; tauto | by eexists].
Qed.

(** C3, as amended: provided the seed is one [np.random.seed] accepts
    (0..2**32-1) and the execution directory can be set up ([exec_dir]
    omitted, or given as a path the system accepts that names no existing
    entry), a scoring name outside the three known ones makes the
    constructor raise the plain [Exception] with the message
    "Score func <name> unknown", and each known name makes it succeed with
    the matching scoring function installed.  Either way no collaborator
    has been called and a successful object has no searcher. *)
Theorem init_scoring_func a w :
  seed_in_range (arg_seed a) = true →
  (∀ d, arg_exec_dir a = Some d → can_create d w) →
  let o := (__init__ a w).1 in
  let w' := (__init__ a w).2 in
  calls w' = calls w ∧
  (¬ legal_scoring_name (arg_scoring_func a) →
   o = Raise (Exception ("Score func " +:+ arg_scoring_func a +:+ " unknown"))) ∧
  (legal_scoring_name (arg_scoring_func a) →
   ∃ self, o = Ok self ∧ searcher self = None ∧
     (arg_scoring_func a = "accuracy" → scoring_func self = accuracy_score) ∧
     (arg_scoring_func a = "balanced_accuracy" →
      scoring_func self = balanced_accuracy_score) ∧
     (arg_scoring_func a = "roc_auc" → scoring_func self = roc_auc_score)).
Proof.
  intros Hseed Hfree o w'. subst o w'.
  destruct (init_unblocked a w (init_error_none a w Hseed Hfree))
    as (-> & Hlegal & Hunk).
  split; [apply init_world_calls|]. split; [exact Hunk|].
  intros Hl. destruct (Hlegal Hl) as (sf & -> & H1 & H2 & H3).
  eexists. split; [reflexivity|]. cbn [searcher scoring_func init_object].
  auto.
Qed.
Section Facts.

Variable package_dir : string.
Variable pcs_read : string → outcome ConfigurationSpace.
Variable SklearnEnv_new : env_kwargs → outcome SklearnEnv.
Variable SearchML_new : search_kwargs → outcome SearchML.
Variable OneHotEncoder_fit_transform : pyobj → outcome pyobj.
Variable MultinomialNB_fit : pyobj → pyobj → outcome unit.
Variable SearchML_run :
  SearchML → rng_state → Z → list configuration →
  outcome unit * SearchML * rng_state.

Abbreviation get_config_space' := (get_config_space package_dir pcs_read).
Abbreviation adapt_search_space' :=
  (adapt_search_space OneHotEncoder_fit_transform MultinomialNB_fit).
Abbreviation searcher_run' := (searcher_run SearchML_run).
Abbreviation fit' :=
  (fit package_dir pcs_read SklearnEnv_new SearchML_new
       OneHotEncoder_fit_transform MultinomialNB_fit SearchML_run).

Definition dense_pcs : string := package_dir +:+ "/model_config/1_0.pcs".

(** The ways a call of [fit] can go: the calls it adds to the trace, its
    outcome and the object it leaves. *)
Inductive fit_shape (self : AutoML) (a : fit_args) (self' : AutoML) :
    list call → outcome (value * value) → Prop :=
| shape_not_iterable :
    categorical_features a = None → self' = self →
    fit_shape self a self' []
      (Raise (TypeError "'NoneType' object is not iterable"))
| shape_pcs_failed cf e :
    categorical_features a = Some cf →
    pcs_read dense_pcs = Raise e → self' = self →
    fit_shape self a self' [pcs_read_call dense_pcs] (Raise e)
| shape_env_failed cf cs kw e :
    categorical_features a = Some cf →
    pcs_read dense_pcs = Ok cs →
    kw = env_kwargs_of self a cf cs →
    SklearnEnv_new kw = Raise e → self' = self →
    fit_shape self a self'
      [pcs_read_call dense_pcs; SklearnEnv_call kw] (Raise e)
| shape_search_failed cf cs kw en skw e :
    categorical_features a = Some cf →
    pcs_read dense_pcs = Ok cs →
    kw = env_kwargs_of self a cf cs →
    SklearnEnv_new kw = Ok en →
    skw = search_kwargs_of self en →
    SearchML_new skw = Raise e → self' = self →
    fit_shape self a self'
      [pcs_read_call dense_pcs; SklearnEnv_call kw; SearchML_call skw]
      (Raise e)
| shape_adapt_failed cf cs kw en skw e :
    categorical_features a = Some cf →
    pcs_read dense_pcs = Ok cs →
    kw = env_kwargs_of self a cf cs →
    SklearnEnv_new kw = Ok en →
    skw = search_kwargs_of self en →
    settings self' = settings self →
    fit_shape self a self'
      [pcs_read_call dense_pcs; SklearnEnv_call kw; SearchML_call skw;
       adapt_search_space_call]
      (Raise e)
| shape_run_raised cf cs kw en skw e :
    categorical_features a = Some cf →
    pcs_read dense_pcs = Ok cs →
    kw = env_kwargs_of self a cf cs →
    SklearnEnv_new kw = Ok en →
    skw = search_kwargs_of self en →
    settings self' = settings self →
    fit_shape self a self'
      [pcs_read_call dense_pcs; SklearnEnv_call kw; SearchML_call skw;
       adapt_search_space_call;
       run_call 100000000000 (initial_configurations a); run_raised e]
      (Raise e)
| shape_run_returned cf cs kw en skw s :
    categorical_features a = Some cf →
    pcs_read dense_pcs = Ok cs →
    kw = env_kwargs_of self a cf cs →
    SklearnEnv_new kw = Ok en →
    skw = search_kwargs_of self en →
    settings self' = settings self →
    searcher self' = Some s →
    fit_shape self a self'
      [pcs_read_call dense_pcs; SklearnEnv_call kw; SearchML_call skw;
       adapt_search_space_call;
       run_call 100000000000 (initial_configurations a); run_returned]
      (best_pair (bestconfig (env (mcts s)))).

(** ** Small facts *)

Ltac case_call :=
  match goal with
  | |- context [np_shape ?x !! 1%nat] => destruct (np_shape x !! 1%nat) eqn:?
  | |- context [OneHotEncoder_fit_transform ?x] =>
      destruct (OneHotEncoder_fit_transform x) eqn:?
  | |- context [MultinomialNB_fit ?x ?y] =>
      destruct (MultinomialNB_fit x y) as [[]|?] eqn:?
  end.

Lemma new_calls_app w w' tr : calls w' = calls w ++ tr → new_calls w w' = tr.
Proof. unfold new_calls. intros ->. by rewrite drop_app_length. Qed.

Lemma issparse_np_array x : issparse (np_array x) = false.
Proof. destruct x; reflexivity. Qed.

Lemma os_getattr_path {S} (s : S) : os_getattr "path" s = (Ok tt, s).
Proof. reflexivity. Qed.

Lemma os_getattr_path4 {S} (s : S) :
  os_getattr "path4" s =
  (Raise (AttributeError "module 'os' has no attribute 'path4'"), s).
Proof. reflexivity. Qed.

Lemma get_config_space_dense x self w :
  issparse x = false →
  get_config_space' x (self, w) =
  (pcs_read dense_pcs,
   (self, add_call (pcs_read_call dense_pcs) (add_record info_dense w))).
Proof.
  intros Hx. unfold get_config_space. rewrite Hx.
  monad_simpl. rewrite os_getattr_path. reflexivity.
Qed.

Lemma get_config_space_sparse x self w :
  issparse x = true →
  get_config_space' x (self, w) =
  (Raise (AttributeError "module 'os' has no attribute 'path4'"),
   (self, add_record info_sparse w)).
Proof.
  intros Hx. unfold get_config_space. rewrite Hx.
  monad_simpl. rewrite os_getattr_path4. reflexivity.
Qed.

(** [adapt_search_space], once the searcher exists, adds its marker to
    the trace and nothing else; it leaves the settings alone and the
    searcher in place. *)
Lemma adapt_search_space_inv x y self w s o self' w' :
  searcher self = Some s →
  adapt_search_space' x y (self, w) = (o, (self', w')) →
  w' = add_call adapt_search_space_call w ∧
  settings self' = settings self ∧
  ∃ s', searcher self' = Some s'.
Proof.
  intros Hs. unfold adapt_search_space, update_searcher_env, shape_1.
  repeat (monad_simpl; cbn [searcher set_problem_dependant_parameter set_searcher];
          rewrite ?Hs; try case_call);
    intros [= <- <- <-]; repeat split; eauto.
Qed.

Lemma fit_shape_outcome self a self' tr o o' :
  fit_shape self a self' tr o → o = o' → fit_shape self a self' tr o'.
Proof. by intros H <-. Qed.

Lemma searcher_run_inv nb init self w s o self' w' :
  searcher self = Some s →
  searcher_run' nb init (self, w) = (o, (self', w')) →
  settings self' = settings self ∧
  (∃ s', searcher self' = Some s') ∧
  ((o = Ok tt ∧ calls w' = calls w ++ [run_call nb init; run_returned]) ∨
   (∃ e, o = Raise e ∧ calls w' = calls w ++ [run_call nb init; run_raised e])).
Proof.
  intros Hs. unfold searcher_run. monad_simpl. rewrite Hs. monad_simpl.
  destruct (SearchML_run s _ nb init) as [[[[]|e] s1] r1]; monad_simpl;
    intros [= <- <- <-]; cbn [calls add_call set_np_random searcher set_searcher];
    rewrite <- ?app_assoc; (split; [reflexivity|]); (split; [eauto|]); eauto.
Qed.

Lemma fit_inv a self w o self' w' :
  fit' a (self, w) = (o, (self', w')) →
  ∃ tr, calls w' = calls w ++ tr ∧ fit_shape self a self' tr o.
Proof.
  unfold fit. monad_simpl.
  destruct (is_not_None (X_test a)) eqn:Ht; monad_simpl;
  (destruct (categorical_features a) as [cf|] eqn:Hc; monad_simpl;
   [| intros [= <- <- <-]; exists []; rewrite app_nil_r;
      split; [reflexivity | apply shape_not_iterable; [exact Hc | reflexivity] ] ]);
  rewrite get_config_space_dense by apply issparse_np_array;
  (destruct (pcs_read dense_pcs) as [cs|e] eqn:Hp; monad_simpl;
   [| intros [= <- <- <-]; eexists; split; [solve_calls | eapply shape_pcs_failed; eauto] ]);
  (match goal with |- context [SklearnEnv_new ?kw] =>
    assert (kw = env_kwargs_of self a cf cs) as Hkw
      by (unfold env_kwargs_of, prepared_test; rewrite Ht; cbn [fst snd];
          rewrite ?Ht; reflexivity);
    destruct (SklearnEnv_new kw) as [en|e] eqn:He; monad_simpl
  end;
  [| intros [= <- <- <-]; eexists; split;
     [solve_calls | eapply shape_env_failed; eauto] ]);
  (match goal with |- context [SearchML_new ?skw] =>
    destruct (SearchML_new skw) as [s|e] eqn:Hs; monad_simpl
  end;
  [| intros [= <- <- <-]; eexists; split;
     [solve_calls | eapply shape_search_failed; eauto] ]);
  (match goal with |- context [adapt_search_space' ?x ?y ?st] =>
    destruct (adapt_search_space' x y st) as [oa [self1 w1]] eqn:Ha;
    eapply adapt_search_space_inv in Ha as (-> & Hset1 & s1 & Hs1);
      [| reflexivity]
  end;
  destruct oa as [[]|e]; monad_simpl;
  [| intros [= <- <- <-]; eexists; split;
     [solve_calls | eapply shape_adapt_failed; eauto] ]);
  (match goal with |- context [searcher_run' ?n ?i ?st] =>
    destruct (searcher_run' n i st) as [orun [self2 w2]] eqn:Hr;
    eapply searcher_run_inv in Hr as (Hset2 & [s2 Hs2] & Hrun); [| exact Hs1]
  end;
  destruct Hrun as [[-> Hcalls] | (e & -> & Hcalls)]);
  assert (settings self2 = settings self) as Hset
    by (etrans; [exact Hset2 | etrans; [exact Hset1 | reflexivity]]).
  all: unfold searcher_env, getitem; monad_simpl; rewrite ?Hs2; monad_simpl.
  all: try (destruct (is_Exception e));
       try (destruct (bestconfig (env (mcts s2)) !! "model") as [m|] eqn:Hm;
            [destruct (bestconfig (env (mcts s2)) !! "validation_score")
               as [v|] eqn:Hv |]);
       intros [= <- <- <-]; eexists;
       (split; [rewrite Hcalls; solve_calls |]).
  all: try (eapply shape_run_raised; eauto; fail).
  all: eapply fit_shape_outcome;
       [ eapply shape_run_returned; eauto
       | unfold best_pair; rewrite Hm, ?Hv; reflexivity ].
Qed.

(** ** Independence from the file system, the logger and the trace *)
























(** ** The claims about [fit] *)

Ltac use_fit_inv H :=
  let tr := fresh "tr" in
  let Hcalls := fresh "Hcalls" in
  let Hshape := fresh "Hshape" in
  destruct (fit_inv _ _ _ _ _ _ H) as (tr & Hcalls & Hshape);
  rewrite (new_calls_app _ _ _ Hcalls) in *;
  destruct Hshape; cbn [In] in *.

(** C1: whenever the search run inside [fit] returns, [fit] returns the
    pair held under "model" and "validation_score" in the best-result slot
    [bestconfig] of the searcher's environment, read after the run. *)
Theorem fit_returns_best_result a self w o self' w' :
  fit' a (self, w) = (o, (self', w')) →
  In run_returned (new_calls w w') →
  ∃ s, searcher self' = Some s ∧
       o = best_pair (bestconfig (env (mcts s))) ∧
       ∀ model score,
         bestconfig (env (mcts s)) !! "model" = Some model →
         bestconfig (env (mcts s)) !! "validation_score" = Some score →
         o = Ok (model, score).
Proof.
  intros H Hin. use_fit_inv H; try (intuition discriminate).
  eexists. split; [eassumption|]. split; [reflexivity|].
  intros model score Hm Hv. unfold best_pair. by rewrite Hm, Hv.
Qed.

(** C2: on a sparse matrix [get_config_space] does not return a space: it
    logs that the data is sparse and raises [AttributeError], because the
    path of the sparse definition file is built through [os.path4]. *)
Theorem get_config_space_sparse_raises nrows ncols nonzero self w :
  get_config_space' (spmatrix nrows ncols nonzero) (self, w) =
  (Raise (AttributeError "module 'os' has no attribute 'path4'"),
   (self, add_record info_sparse w)).
Proof. by apply get_config_space_sparse. Qed.

Lemma settings_limits self self' :
  settings self' = settings self →
  memory_limit self' = memory_limit self ∧
  time_limit_for_evaluation self' = time_limit_for_evaluation self ∧
  seed self' = seed self.
Proof. unfold settings. intros [= ]. auto. Qed.

(** C4: every environment [fit] constructs gets as [mem_in_mb] the
    [memory_limit] and as [cpu_time_in_s] the [time_limit_for_evaluation]
    given to the constructor; one is constructed as soon as
    [categorical_features] is a list and the definition file is read; and
    [fit] leaves both limits of the object as they were. *)
Theorem fit_env_limits args w0 self a w o self' w' :
  (__init__ args w0).1 = Ok self →
  fit' a (self, w) = (o, (self', w')) →
  (∀ kw, In (SklearnEnv_call kw) (new_calls w w') →
     mem_in_mb kw = arg_memory_limit args ∧
     cpu_time_in_s kw = arg_time_limit_for_evaluation args) ∧
  (∀ cf cs, categorical_features a = Some cf → pcs_read dense_pcs = Ok cs →
     ∃ kw, In (SklearnEnv_call kw) (new_calls w w')) ∧
  memory_limit self' = arg_memory_limit args ∧
  time_limit_for_evaluation self' = arg_time_limit_for_evaluation args.
Proof.
  intros Hinit H.
  destruct (init_ok_inv _ _ _ Hinit) as (_ & _ & sf & Hself).
  assert (memory_limit self = arg_memory_limit args ∧
          time_limit_for_evaluation self = arg_time_limit_for_evaluation args)
    as [Hm Ht] by (by subst self).
  use_fit_inv H; subst;
    try match goal with Hs : settings _ = settings _ |- _ =>
      apply settings_limits in Hs; destruct Hs as (-> & -> & _) end;
    (split; [intros kw' Hin; intuition (try discriminate);
             match goal with Hk : SklearnEnv_call _ = SklearnEnv_call _ |- _ =>
               injection Hk as <- end; by split|]);
    (split; [|by split]);
    intros cf' cs' Hcf Hcs; try congruence; eauto.
Qed.

(** C5: the number of simulations [fit] asks the searcher for is the
    constant 100000000000 written in the call, and the initial
    configurations are the caller's; the argument [nb_simulation] is not
    looked at. *)
Theorem fit_run_cap a self w o self' w' :
  fit' a (self, w) = (o, (self', w')) →
  ∀ n init, In (run_call n init) (new_calls w w') →
    n = 100000000000 ∧ init = initial_configurations a.
Proof.
  intros H n init Hin. use_fit_inv H; intuition (try discriminate);
    match goal with Hk : run_call _ _ = run_call _ _ |- _ =>
      by injection Hk as <- <- end.
Qed.

(** C6, as amended: an exception that escapes the searcher's [run] is
    raised again by [fit], which then returns nothing; [fit] returns a
    result only when [run] has returned. *)
Theorem fit_propagates_run_error a self w o self' w' :
  fit' a (self, w) = (o, (self', w')) →
  (∀ e, In (run_raised e) (new_calls w w') → o = Raise e) ∧
  (∀ r, o = Ok r → In run_returned (new_calls w w')).
Proof.
  intros H. use_fit_inv H; split;
    try (intros e' Hin; intuition (try discriminate);
         match goal with Hk : run_raised _ = run_raised _ |- _ =>
           by injection Hk as <- end);
    try (intros r Hr; discriminate); auto 10.
Qed.


(** C9: with [categorical_features] left at [None], [fit] raises
    [TypeError] while it formats the indices of the categorical features:
    the object is untouched, no collaborator has been called (no definition
    file read, no environment or searcher constructed, no run), and the file
    system and the generator are as they were. *)
Theorem fit_without_categorical_features a self w :
  categorical_features a = None →
  ∃ w', fit' a (self, w) =
        (Raise (TypeError "'NoneType' object is not iterable"), (self, w')) ∧
        new_calls w w' = [] ∧ dirs w' = dirs w ∧ files w' = files w ∧
        np_random w' = np_random w.
Proof.
  intros Hc. unfold fit. monad_simpl. rewrite Hc.
  destruct (is_not_None (X_test a)); monad_simpl;
    eexists; (split; [reflexivity|]);
    (split; [apply new_calls_app; by rewrite app_nil_r|]); by repeat split.
Qed.


End Facts.

(** ** The claims on concrete runs *)

Ltac in_list := vm_compute; repeat first [left; reflexivity | right].

(** C1 on the run of [Demo]: the search returns and [fit] hands out what
    the slot holds. *)
Lemma fit_returns_best_result_witness :
  ∃ s, searcher Demo.ran.2.1 = Some s ∧
       Demo.ran.1 = best_pair (bestconfig (env (mcts s))) ∧
       ∀ model score,
         bestconfig (env (mcts s)) !! "model" = Some model →
         bestconfig (env (mcts s)) !! "validation_score" = Some score →
         Demo.ran.1 = Ok (model, score).
Proof.
  apply (fit_returns_best_result Demo.package_dir Demo.pcs_read
           Demo.SklearnEnv_new Demo.SearchML_new
           Demo.OneHotEncoder_fit_transform Demo.MultinomialNB_fit
           Demo.SearchML_run Demo.args0 Demo.self0 Demo.world1
           Demo.ran.1 Demo.ran.2.1 Demo.ran.2.2).
  - vm_compute. reflexivity.
  - in_list.
Defined.

(** C3 fails as stated: with [exec_dir] naming a directory that exists,
    an unknown scoring name is never looked at and a known one does not
    make the constructor succeed; [os.makedirs] raises first. *)
Lemma init_existing_dir_masks_scoring_check :
  ¬ legal_scoring_name "f1" ∧
  (__init__ (Demo.with_exec_dir "run" "f1") Demo.world0).1 =
    Raise (FileExistsError "run") ∧
  legal_scoring_name "accuracy" ∧
  (__init__ (Demo.with_exec_dir "run" "accuracy") Demo.world0).1 =
    Raise (FileExistsError "run").
Proof.
  split; [intros [H | [H | H]]; discriminate|].
  split; [vm_compute; reflexivity|].
  split; [by left | vm_compute; reflexivity].
Qed.

(** C3 as amended, with a new directory [work] and the unknown name [f1]. *)
Lemma init_scoring_func_witness :
  let a := Demo.with_exec_dir "work" "f1" in
  let o := (__init__ a Demo.world0).1 in
  let w' := (__init__ a Demo.world0).2 in
  calls w' = calls Demo.world0 ∧
  (¬ legal_scoring_name (arg_scoring_func a) →
   o = Raise (Exception ("Score func " +:+ arg_scoring_func a +:+ " unknown"))) ∧
  (legal_scoring_name (arg_scoring_func a) →
   ∃ self, o = Ok self ∧ searcher self = None ∧
     (arg_scoring_func a = "accuracy" → scoring_func self = accuracy_score) ∧
     (arg_scoring_func a = "balanced_accuracy" →
      scoring_func self = balanced_accuracy_score) ∧
     (arg_scoring_func a = "roc_auc" → scoring_func self = roc_auc_score)).
Proof.
  apply (init_scoring_func (Demo.with_exec_dir "work" "f1") Demo.world0).
  - reflexivity.
  - intros d [= <-]. exists "/home/user/work". split; vm_compute; reflexivity.
Defined.

(** C4 on the run of [Demo]: the limits are the constructor's defaults. *)
Lemma fit_env_limits_witness :
  (∀ kw, In (SklearnEnv_call kw) (new_calls Demo.world1 Demo.ran.2.2) →
     mem_in_mb kw = 3024 ∧ cpu_time_in_s kw = 300) ∧
  (∀ cf cs, categorical_features Demo.args0 = Some cf →
     Demo.pcs_read (dense_pcs Demo.package_dir) = Ok cs →
     ∃ kw, In (SklearnEnv_call kw) (new_calls Demo.world1 Demo.ran.2.2)) ∧
  memory_limit Demo.ran.2.1 = 3024 ∧
  time_limit_for_evaluation Demo.ran.2.1 = 300.
Proof.
  apply (fit_env_limits Demo.package_dir Demo.pcs_read
           Demo.SklearnEnv_new Demo.SearchML_new
           Demo.OneHotEncoder_fit_transform Demo.MultinomialNB_fit
           Demo.SearchML_run default_init_args Demo.world0 Demo.self0
           Demo.args0 Demo.world1 Demo.ran.1 Demo.ran.2.1 Demo.ran.2.2).
  - vm_compute. reflexivity.
  - vm_compute. reflexivity.
Defined.

(** C5 on the run of [Demo]: the caller asked for ten simulations and the
    searcher is asked for 100000000000. *)
Lemma fit_run_cap_witness :
  nb_simulation Demo.args0 = finite 10 ∧
  In (run_call 100000000000 []) (new_calls Demo.world1 Demo.ran.2.2) ∧
  (100000000000 = 100000000000 ∧ [] = initial_configurations Demo.args0).
Proof.
  split; [reflexivity|].
  assert (In (run_call 100000000000 []) (new_calls Demo.world1 Demo.ran.2.2))
    as Hin by in_list.
  split; [exact Hin|].
  apply (fit_run_cap Demo.package_dir Demo.pcs_read
           Demo.SklearnEnv_new Demo.SearchML_new
           Demo.OneHotEncoder_fit_transform Demo.MultinomialNB_fit
           Demo.SearchML_run Demo.args0 Demo.self0 Demo.world1
           Demo.ran.1 Demo.ran.2.1 Demo.ran.2.2).
  - vm_compute. reflexivity.
  - exact Hin.
Defined.

(** C6 fails as stated: the aborted search of [Demo] has left a best
    result in the slot, and [fit] raises the searcher's exception instead
    of returning it. *)
Lemma fit_aborted_search_raises :
  Demo.ran_aborted.1 = Raise Demo.search_aborted ∧
  is_Exception Demo.search_aborted = true ∧
  ∃ s, searcher Demo.ran_aborted.2.1 = Some s ∧
       best_pair (bestconfig (env (mcts s))) =
       Ok (Demo.tree_config, VFloat (9 # 10)).
Proof.
  split; [vm_compute; reflexivity|]. split; [reflexivity|].
  destruct (searcher Demo.ran_aborted.2.1) as [s|] eqn:Hs;
    [|vm_compute in Hs; discriminate].
  exists s. split; [reflexivity|].
  vm_compute in Hs. injection Hs as <-. vm_compute. reflexivity.
Qed.

(** C6 as amended, on the aborted search. *)
Lemma fit_propagates_run_error_witness :
  (∀ e, In (run_raised e) (new_calls Demo.world1 Demo.ran_aborted.2.2) →
     Demo.ran_aborted.1 = Raise e) ∧
  (∀ r, Demo.ran_aborted.1 = Ok r →
     In run_returned (new_calls Demo.world1 Demo.ran_aborted.2.2)).
Proof.
  apply (fit_propagates_run_error Demo.package_dir Demo.pcs_read
           Demo.SklearnEnv_new Demo.SearchML_new
           Demo.OneHotEncoder_fit_transform Demo.MultinomialNB_fit
           Demo.SearchML_run_aborted Demo.args0 Demo.self0 Demo.world1
           Demo.ran_aborted.1 Demo.ran_aborted.2.1 Demo.ran_aborted.2.2).
  vm_compute. reflexivity.
Defined.




(** C9 on the call of [Demo] that leaves [categorical_features] out. *)
Lemma fit_without_categorical_features_witness :
  ∃ w', Demo.fit_found Demo.args_default_categorical (Demo.self0, Demo.world1) =
        (Raise (TypeError "'NoneType' object is not iterable"), (Demo.self0, w')) ∧
        new_calls Demo.world1 w' = [] ∧ dirs w' = dirs Demo.world1 ∧
        files w' = files Demo.world1 ∧ np_random w' = np_random Demo.world1.
Proof.
  apply (fit_without_categorical_features Demo.package_dir Demo.pcs_read
           Demo.SklearnEnv_new Demo.SearchML_new
           Demo.OneHotEncoder_fit_transform Demo.MultinomialNB_fit
           Demo.SearchML_run Demo.args_default_categorical).
  reflexivity.
Defined.

(** C10 fails as stated: with the seed 2**32 and [exec_dir] omitted the
    constructor raises in [np.random.seed] and no temporary directory has
    been created; with the existing [run] asked for, the failure is not the
    one of [os.makedirs]. *)
Lemma init_seed_out_of_range_stops_first :
  arg_exec_dir (Demo.with_seed (2 ^ 32)) = None ∧
  __init__ (Demo.with_seed (2 ^ 32)) Demo.world0 =
    (Raise (ValueError "Seed must be between 0 and 2**32 - 1"), Demo.world0) ∧
  (__init__ {| arg_time_budget := 3600; arg_time_limit_for_evaluation := 300;
               arg_memory_limit := 3024; arg_scoring_func := "roc_auc";
               arg_seed := -1; arg_data_manager := PyNone;
               arg_exec_dir := Some "run"; arg_verbose := 0 |} Demo.world0).1 =
    Raise (ValueError "Seed must be between 0 and 2**32 - 1").
Proof.
  split; [reflexivity|]. split; [|vm_compute; reflexivity].
  apply init_bad_seed. reflexivity.
Qed.

(** C10 as amended, on a process in which [run] exists: asking for it
    under the spelling [run/] fails, asking for [work] creates it with the
    log inside. *)
Lemma init_exec_dir_witness :
  (__init__ (Demo.with_exec_dir "run/" "accuracy") Demo.world0).1 =
    Raise (FileExistsError "run/") ∧
  (∀ self, (__init__ (Demo.with_exec_dir "work" "accuracy") Demo.world0).1 = Ok self →
     can_create "work" Demo.world0 ∧ exec_dir self = "work" ∧
     "work" ∈ dirs (__init__ (Demo.with_exec_dir "work" "accuracy") Demo.world0).2 ∧
     log_path "work" ∈ files (__init__ (Demo.with_exec_dir "work" "accuracy") Demo.world0).2 ∧
     FileHandler (log_path "work")
       ∈ handlers (__init__ (Demo.with_exec_dir "work" "accuracy") Demo.world0).2).
Proof.
  split.
  - apply (proj1 (proj1 (proj2 (init_exec_dir (Demo.with_exec_dir "run/" "accuracy")
                                  Demo.world0) eq_refl) "run/" eq_refl)).
    exists "/home/user/run". split; vm_compute; reflexivity.
  - apply (proj2 (proj1 (proj2 (init_exec_dir (Demo.with_exec_dir "work" "accuracy")
                                  Demo.world0) eq_refl) "work" eq_refl)).
Defined.

(** * Further properties *)

(** ** The constructor, continued *)

Lemma init_world_handlers_eq a w :
  handlers (init_world a w) =
  handlers w ++ FileHandler (log_path (init_dir a w)) ::
    (if bool_decide (arg_verbose a = 0) then [] else [StreamHandler_stdout]).
Proof.
  unfold init_world, after_dir_setup.
  case_bool_decide; cbn [handlers add_handler add_file add_dirs set_np_random];
    by rewrite <- ?app_assoc.
Qed.

Lemma init_world_resolve a w : resolve (init_world a w) = resolve w.
Proof.
  unfold init_world, after_dir_setup. by case_bool_decide.
Qed.

(** The three ways a construction can leave the process. *)
Lemma init_state_cases a w :
  (seed_in_range (arg_seed a) = false ∧ (__init__ a w).2 = w) ∨
  (seed_in_range (arg_seed a) = true ∧ is_Some (init_error a w) ∧
   (__init__ a w).2 = set_np_random {| rng_key := arg_seed a; rng_pos := 0 |} w) ∨
  (seed_in_range (arg_seed a) = true ∧ init_error a w = None ∧
   (__init__ a w).2 = init_world a w).
Proof.
  destruct (seed_in_range (arg_seed a)) eqn:Hs.
  - right. destruct (init_error a w) as [e|] eqn:Hb.
    + left. split; [done|]. split; [by eexists|].
      rewrite init_eq. cbv zeta. by rewrite Hs, Hb.
    + right. split; [done|]. split; [done|]. by apply init_unblocked.
  - left. split; [done|]. by rewrite (init_bad_seed _ _ Hs).
Qed.

Lemma occupied_intro id q w :
  q ∈ dirs w ∪ files w → resolve w q = Ok id → occupied id w = true.
Proof.
  intros Hq Hr. unfold occupied. apply bool_decide_eq_true. by exists q.
Qed.

Lemma can_create_absent p w : can_create p w → path_exists p w = false.
Proof.
  intros (id & Hr & Ho). unfold path_exists. apply bool_decide_eq_false.
  intros Hin. rewrite (occupied_intro _ _ _ Hin Hr) in Ho. done.
Qed.

(** X1: the constructor checks and sets the seed before anything else.
    With a seed [np.random.seed] accepts (0..2**32-1) the generator is in
    the state of the seed after every construction, also after one that
    raised later on; with any other seed the constructor raises
    [ValueError] and the process is as it was.  Either way nothing has been
    logged and no collaborator has been called. *)
Theorem init_always_reseeds a w :
  (seed_in_range (arg_seed a) = true →
   np_random (__init__ a w).2 = {| rng_key := arg_seed a; rng_pos := 0 |}) ∧
  (seed_in_range (arg_seed a) = false →
   __init__ a w =
   (Raise (ValueError "Seed must be between 0 and 2**32 - 1"), w)) ∧
  records (__init__ a w).2 = records w ∧
  new_calls w (__init__ a w).2 = [].
Proof.
  split; [|split].
  - intros Hs.
    destruct (init_state_cases a w) as [[Hs' _] | [(_ & _ & ->) | (_ & _ & ->)]].
    + congruence.
    + reflexivity.
    + apply init_world_np_random.
  - apply init_bad_seed.
  - destruct (init_state_cases a w) as [[_ ->] | [(_ & _ & ->) | (_ & _ & ->)]].
    + split; [done|]. apply new_calls_app. by rewrite app_nil_r.
    + split; [done|]. apply new_calls_app. by rewrite app_nil_r.
    + split.
      * unfold init_world, after_dir_setup. by case_bool_decide.
      * apply new_calls_app. by rewrite init_world_calls, app_nil_r.
Qed.

(** X2: an execution directory can be used once.  After any construction,
    successful or not, that got past the seed check and named a directory
    by a path the system accepts, a construction with an accepted seed that
    names the same directory, under the same or another spelling, stops in
    [os.makedirs] with [FileExistsError], whatever its other arguments. *)
Theorem init_same_exec_dir_again a a' w d d' id :
  seed_in_range (arg_seed a) = true →
  seed_in_range (arg_seed a') = true →
  arg_exec_dir a = Some d →
  arg_exec_dir a' = Some d' →
  resolve w d = Ok id →
  resolve w d' = Ok id →
  (__init__ a' (__init__ a w).2).1 = Raise (FileExistsError d').
Proof.
  intros Hs Hs' Ha Ha' Hd Hd'.
  assert (resolve (__init__ a w).2 = resolve w ∧
          occupied id (__init__ a w).2 = true) as [Hr Ho].
  { destruct (init_state_cases a w)
      as [[Hs0 _] | [(_ & [e He] & ->) | (_ & He & ->)]].
    - congruence.
    - split; [reflexivity|].
      unfold init_error, makedirs_error in He. rewrite Hs, Ha, Hd in He.
      change (occupied id (set_np_random _ w)) with (occupied id w).
      by destruct (occupied id w).
    - split; [apply init_world_resolve|].
      apply (occupied_intro _ d).
      + rewrite init_world_dirs. pose proof (init_dir_in_new_dirs a w) as Hin.
        unfold init_dir in Hin. rewrite Ha in Hin. set_solver.
      + by rewrite init_world_resolve. }
  rewrite init_eq. cbv zeta.
  unfold init_error, makedirs_error. by rewrite Hs', Ha', Hr, Hd', Ho.
Qed.

(** X3: a construction that fails on the name of the scoring function,
    which takes a seed [np.random.seed] accepts and an execution directory
    that can be set up, has already created the execution directory and the
    log file and attached the file handler to the logger; nothing is
    undone. *)
Theorem init_unknown_name_leaves_directory a w :
  seed_in_range (arg_seed a) = true →
  (∀ d, arg_exec_dir a = Some d → can_create d w) →
  ¬ legal_scoring_name (arg_scoring_func a) →
  ∃ dir,
    (__init__ a w).1 = Raise (Exception (unknown_score_message (arg_scoring_func a))) ∧
    path_exists dir w = false ∧
    dir ∈ dirs (__init__ a w).2 ∧
    log_path dir ∈ files (__init__ a w).2 ∧
    FileHandler (log_path dir) ∈ handlers (__init__ a w).2.
Proof.
  intros Hseed Hfree Hl.
  destruct (init_unblocked a w (init_error_none a w Hseed Hfree))
    as (-> & _ & Hunk).
  exists (init_dir a w). split; [by apply Hunk|].
  rewrite init_world_dirs, init_world_files.
  pose proof (init_dir_in_new_dirs a w) as Hin.
  pose proof (init_world_handlers a w) as Hh.
  split; [|split; [set_solver | split; [set_solver | done]]].
  unfold init_dir. destruct (arg_exec_dir a) as [d|] eqn:Hd.
  - by apply can_create_absent, Hfree.
  - apply mkdtemp_name_fresh.
Qed.

(** X4: two constructions in a row that leave [exec_dir] out work in
    different directories, and the second leaves the first one's directory
    and log file in place. *)
Theorem init_temporary_dirs_differ a a' w self self' :
  arg_exec_dir a = None →
  arg_exec_dir a' = None →
  (__init__ a w).1 = Ok self →
  (__init__ a' (__init__ a w).2).1 = Ok self' →
  exec_dir self' ≠ exec_dir self ∧
  exec_dir self ∈ dirs (__init__ a' (__init__ a w).2).2 ∧
  log_path (exec_dir self) ∈ files (__init__ a' (__init__ a w).2).2.
Proof.
  intros Ha Ha' H1 H2.
  destruct (init_ok_inv _ _ _ H1) as (_ & Hw1 & sf1 & ->).
  destruct (init_ok_inv _ _ _ H2) as (_ & Hw2 & sf2 & ->).
  rewrite Hw2, Hw1. cbn [exec_dir init_object].
  set (w1 := init_world a w).
  assert (init_dir a w ∈ dirs w1) as Hin.
  { subst w1. rewrite init_world_dirs.
    pose proof (init_dir_in_new_dirs a w). set_solver. }
  assert (log_path (init_dir a w) ∈ files w1) as Hlog.
  { subst w1. rewrite init_world_files. set_solver. }
  split; [|split].
  - intros Heq. rewrite <- Heq in Hin.
    unfold init_dir at 1 in Hin. rewrite Ha' in Hin.
    pose proof (fresh_string_of_set_fresh (dirs w1 ∪ files w1) "/tmp/tmp").
    set_solver.
  - rewrite init_world_dirs. set_solver.
  - rewrite init_world_files. set_solver.
Qed.

(** X5: handlers are only ever added to the [automl] logger.  After two
    successful constructions the file handlers of both are attached, so the
    first object's log file also receives what the second logs. *)
Theorem init_handlers_accumulate a a' w self self' :
  (__init__ a w).1 = Ok self →
  (__init__ a' (__init__ a w).2).1 = Ok self' →
  let w'' := (__init__ a' (__init__ a w).2).2 in
  (∀ h, h ∈ handlers w → h ∈ handlers w'') ∧
  FileHandler (log_path (exec_dir self)) ∈ handlers w'' ∧
  FileHandler (log_path (exec_dir self')) ∈ handlers w'' ∧
  (arg_verbose a' ≠ 0 → StreamHandler_stdout ∈ handlers w'').
Proof.
  intros H1 H2 w''. subst w''.
  destruct (init_ok_inv _ _ _ H1) as (_ & Hw1 & sf1 & ->).
  destruct (init_ok_inv _ _ _ H2) as (_ & Hw2 & sf2 & ->).
  rewrite Hw2, Hw1. cbn [exec_dir init_object].
  rewrite !init_world_handlers_eq.
  repeat split.
  - intros h Hh. set_solver.
  - set_solver.
  - set_solver.
  - intros Hv. rewrite (bool_decide_eq_false_2 _ Hv). set_solver.
Qed.

(** ** [adapt_search_space] and [fit], continued *)

(** A computation that leaves directories, files and handlers alone. *)
Definition keeps_files {A} (m : M Proc A) : Prop :=
  ∀ self w,
    dirs (m (self, w)).2.2 = dirs w ∧
    files (m (self, w)).2.2 = files w ∧
    handlers (m (self, w)).2.2 = handlers w.

Section MoreFacts.

Variable package_dir : string.
Variable pcs_read : string → outcome ConfigurationSpace.
Variable SklearnEnv_new : env_kwargs → outcome SklearnEnv.
Variable SearchML_new : search_kwargs → outcome SearchML.
Variable OneHotEncoder_fit_transform : pyobj → outcome pyobj.
Variable MultinomialNB_fit : pyobj → pyobj → outcome unit.
Variable SearchML_run :
  SearchML → rng_state → Z → list configuration →
  outcome unit * SearchML * rng_state.

Abbreviation get_config_space' := (get_config_space package_dir pcs_read).
Abbreviation adapt_search_space' :=
  (adapt_search_space OneHotEncoder_fit_transform MultinomialNB_fit).
Abbreviation searcher_run' := (searcher_run SearchML_run).
Abbreviation fit' :=
  (fit package_dir pcs_read SklearnEnv_new SearchML_new
       OneHotEncoder_fit_transform MultinomialNB_fit SearchML_run).
Abbreviation dense_pcs' := (dense_pcs package_dir).
Abbreviation fit_shape' := (fit_shape package_dir pcs_read SklearnEnv_new SearchML_new).

Ltac reduce_new_calls :=
  first
    [ erewrite new_calls_app by solve_calls
    | rewrite (new_calls_app _ _ [])
        by (cbn [calls add_call add_record]; by rewrite app_nil_r) ].

Ltac case_collaborator :=
  match goal with
  | |- context [np_shape ?x !! 1%nat] => destruct (np_shape x !! 1%nat) eqn:?
  | |- context [OneHotEncoder_fit_transform ?x] =>
      destruct (OneHotEncoder_fit_transform x) eqn:?
  | |- context [MultinomialNB_fit ?x ?y] =>
      destruct (MultinomialNB_fit x y) as [[]|?] eqn:?
  end.

(** X6: on data whose shape has fewer than two entries [adapt_search_space]
    raises [IndexError], whatever the encoder would do and whether or not a
    searcher exists: the fallback of the bare [except] indexes the shape
    again.  It has set [problem_dependant_parameter] on the object by then
    and has not touched the searcher. *)
Theorem adapt_search_space_low_dimension x y self w :
  np_shape x !! 1%nat = None →
  adapt_search_space' x y (self, w) =
  (Raise (IndexError "tuple index out of range"),
   (set_problem_dependant_parameter the_problem_dependant_parameter self,
    add_call adapt_search_space_call w)).
Proof.
  intros Hx. unfold adapt_search_space, shape_1. rewrite Hx. monad_simpl.
  reflexivity.
Qed.

(** X7: on data with at least two dimensions and with a searcher in place
    [adapt_search_space] cannot fail: a failing encoder or a failing naive
    Bayes fit is swallowed.  It records in the searcher's environment the
    four problem-dependent parameter names and a dictionary with the number
    of columns as [no_encoding], the number of columns of the one-hot
    encoding as [one_hot_encoding] (the plain number of columns when the
    encoder fails or returns something without a second dimension) and
    whether the naive Bayes fit went through as [is_positive]; the
    best-result slot is left as it was. *)
Theorem adapt_search_space_records x y self w s n :
  searcher self = Some s →
  np_shape x !! 1%nat = Some n →
  ∃ self' s' d,
    adapt_search_space' x y (self, w) =
      (Ok tt, (self', add_call adapt_search_space_call w)) ∧
    searcher self' = Some s' ∧
    settings self' = settings self ∧
    problem_dependant_parameter self' = Some the_problem_dependant_parameter ∧
    problem_dependant_param (env (mcts s')) = Some the_problem_dependant_parameter ∧
    problem_dependant_value (env (mcts s')) = Some d ∧
    bestconfig (env (mcts s')) = bestconfig (env (mcts s)) ∧
    d !! "no_encoding" = Some (VInt (Z.of_nat n)) ∧
    d !! "one_hot_encoding" =
      Some (VInt (Z.of_nat
        match OneHotEncoder_fit_transform x with
        | Ok t => default n (np_shape t !! 1%nat)
        | Raise _ => n
        end)) ∧
    d !! "is_positive" =
      Some (VBool match MultinomialNB_fit x y with
                  | Ok _ => true
                  | Raise _ => false
                  end).
Proof.
  intros Hs Hx. unfold adapt_search_space, update_searcher_env, shape_1.
  rewrite Hx.
  repeat (monad_simpl; cbn [searcher set_problem_dependant_parameter set_searcher];
          rewrite ?Hs; try case_collaborator);
    do 3 eexists; (split; [reflexivity|]);
    cbn [searcher set_searcher problem_dependant_parameter
         set_problem_dependant_parameter with_env mcts env
         problem_dependant_param problem_dependant_value bestconfig
         set_problem_dependant_param set_problem_dependant_value default];
    repeat split.
Qed.

Lemma adapt_search_space_outcome x y self w s o self' w' :
  searcher self = Some s →
  adapt_search_space' x y (self, w) = (o, (self', w')) →
  w' = add_call adapt_search_space_call w ∧
  (∃ s', searcher self' = Some s') ∧
  match np_shape x !! 1%nat with
  | Some _ => o = Ok tt
  | None => o = Raise (IndexError "tuple index out of range")
  end.
Proof.
  intros Hs. destruct (np_shape x !! 1%nat) as [n|] eqn:Hx.
  - destruct (adapt_search_space_records x y self w s n Hs Hx)
      as (self1 & s1 & d & -> & Hs1 & _).
    intros [= <- <- <-]. eauto.
  - rewrite (adapt_search_space_low_dimension x y self w Hx).
    intros [= <- <- <-]. cbn [searcher set_problem_dependant_parameter]. eauto.
Qed.

(** How far a call of [fit] got: it stopped before a searcher was stored,
    or in the adaptation, or it started the search run. *)
Lemma fit_progress a self w o self' w' :
  fit' a (self, w) = (o, (self', w')) →
  let tr := new_calls w w' in
  (self' = self ∧ np_random w' = np_random w ∧
   (∀ skw s, In (SearchML_call skw) tr → SearchML_new skw ≠ Ok s) ∧
   ¬ In adapt_search_space_call tr ∧
   (∀ n i, ¬ In (run_call n i) tr) ∧ ∃ e, o = Raise e) ∨
  (np_shape (np_array (X a)) !! 1%nat = None ∧
   (∃ s', searcher self' = Some s') ∧ np_random w' = np_random w ∧
   In adapt_search_space_call tr ∧
   (∀ n i, ¬ In (run_call n i) tr) ∧
   o = Raise (IndexError "tuple index out of range")) ∨
  (is_Some (np_shape (np_array (X a)) !! 1%nat) ∧
   (∃ s', searcher self' = Some s') ∧
   In (run_call 100000000000 (initial_configurations a)) tr).
Proof.
  intros H tr. subst tr. revert H. unfold fit. monad_simpl.
  destruct (is_not_None (X_test a)) eqn:Ht; monad_simpl;
  (destruct (categorical_features a) as [cf|] eqn:Hc; monad_simpl;
   [| intros [= <- <- <-]; left;
      reduce_new_calls;
      repeat split; eauto; cbn [In]; intuition discriminate ]);
  rewrite (get_config_space_dense package_dir pcs_read)
    by apply issparse_np_array;
  (destruct (pcs_read dense_pcs') as [cs|e] eqn:Hp; monad_simpl;
   [| intros [= <- <- <-]; left;
      reduce_new_calls;
      repeat split; eauto; cbn [In]; intuition discriminate ]);
  (match goal with |- context [SklearnEnv_new ?kw] =>
    destruct (SklearnEnv_new kw) as [en|e] eqn:He; monad_simpl
  end;
  [| intros [= <- <- <-]; left;
     reduce_new_calls;
     repeat split; eauto; cbn [In]; intuition discriminate ]);
  (match goal with |- context [SearchML_new ?skw] =>
    destruct (SearchML_new skw) as [s|e] eqn:Hs; monad_simpl
  end;
  [| intros [= <- <- <-]; left;
     reduce_new_calls;
     repeat split; eauto; cbn [In];
     [ intros skw' s' Hin; intuition (try discriminate);
       match goal with Hk : SearchML_call _ = SearchML_call _ |- _ =>
         injection Hk as <-; congruence end
     | intuition discriminate | intuition discriminate ] ]);
  (match goal with |- context [adapt_search_space' ?x ?y ?st] =>
    destruct (adapt_search_space' x y st) as [oa [self1 w1]] eqn:Ha;
    eapply adapt_search_space_outcome in Ha as (-> & [s1 Hs1] & Hout);
      [| reflexivity]
  end);
  (destruct (np_shape (np_array (X a)) !! 1%nat) as [n|] eqn:Hx; subst oa;
   monad_simpl;
   [| intros [= <- <- <-]; right; left;
      reduce_new_calls;
      repeat split; eauto; cbn [In]; intuition discriminate ]);
  (match goal with |- context [searcher_run' ?n ?i ?st] =>
    destruct (searcher_run' n i st) as [orun [self2 w2]] eqn:Hr;
    eapply (searcher_run_inv SearchML_run) in Hr as (_ & [s2 Hs2] & Hrun);
      [| exact Hs1]
  end).
  all: assert (In (run_call 100000000000 (initial_configurations a))
                 (new_calls w w2)) as Hin
    by (destruct Hrun as [[_ Hcalls] | (e & _ & Hcalls)];
        cbn [calls add_call add_record] in Hcalls;
        rewrite <- ?app_assoc in Hcalls; cbn [app] in Hcalls;
        erewrite new_calls_app by exact Hcalls;
        cbn [In]; auto 10).
  all: destruct Hrun as [[-> _] | (e & -> & _)]; monad_simpl;
       unfold searcher_env, getitem; monad_simpl; rewrite ?Hs2; monad_simpl;
       try (destruct (is_Exception e));
       try (destruct (bestconfig (env (mcts s2)) !! "model") as [m|];
            [destruct (bestconfig (env (mcts s2)) !! "validation_score")
               as [v|] |]);
       monad_simpl; intros [= <- <- <-]; right; right;
       (split; [by eexists|]); (split; [eauto | exact Hin]).
Qed.

Lemma keeps_ret {A} (a : A) : keeps_files (mret a).
Proof. by intros self w. Qed.

Lemma keeps_raise {A} (e : exn) : keeps_files (raise (A:=A) e).
Proof. by intros self w. Qed.

Lemma keeps_of_outcome {A} (o : outcome A) : keeps_files (of_outcome o).
Proof. by intros self w. Qed.

Lemma keeps_bind {A B} (m : M Proc A) (k : A → M Proc B) :
  keeps_files m → (∀ a, keeps_files (k a)) → keeps_files (m ≫= k).
Proof.
  intros Hm Hk self w. unfold mbind, M_bind, bind.
  specialize (Hm self w).
  destruct (m (self, w)) as [[a|e] [s1 v1]]; cbn [fst snd] in *; [|done].
  destruct Hm as (<- & <- & <-). apply Hk.
Qed.

Lemma keeps_try_except {A} (m h : M Proc A) :
  keeps_files m → keeps_files h → keeps_files (try_except m h).
Proof.
  intros Hm Hh self w. unfold try_except. specialize (Hm self w).
  destruct (m (self, w)) as [[a|e] [s1 v1]]; cbn [fst snd] in *; [done|].
  destruct Hm as (<- & <- & <-). apply Hh.
Qed.

Lemma keeps_try_except_Exception {A} (m : M Proc A) (h : exn → M Proc A) :
  keeps_files m → (∀ e, keeps_files (h e)) →
  keeps_files (try_except_Exception m h).
Proof.
  intros Hm Hh self w. unfold try_except_Exception. specialize (Hm self w).
  destruct (m (self, w)) as [[a|e] [s1 v1]]; cbn [fst snd] in *; [done|].
  destruct (is_Exception e); [|done].
  destruct Hm as (<- & <- & <-). apply Hh.
Qed.

Lemma keeps_logger_info r : keeps_files (in_world (logger_info r)).
Proof. by intros self w. Qed.

Lemma keeps_emit c : keeps_files (in_world (emit c)).
Proof. by intros self w. Qed.

Lemma keeps_np_random : keeps_files (in_world (gets np_random)).
Proof. by intros self w. Qed.

Lemma keeps_get_self : keeps_files get_self.
Proof. by intros self w. Qed.

Lemma keeps_modify_self (g : AutoML → AutoML) :
  keeps_files (modify (λ '(self, w), (g self, w))).
Proof. by intros self w. Qed.

Lemma keeps_modify_self_rng (g : AutoML → AutoML) (r : rng_state) :
  keeps_files (modify (λ '(self, w), (g self, set_np_random r w))).
Proof. by intros self w. Qed.

Lemma keeps_shape_1 x : keeps_files (shape_1 x).
Proof. unfold shape_1. destruct (_ !! _); [apply keeps_ret | apply keeps_raise]. Qed.

Lemma keeps_getitem d k : keeps_files (getitem d k).
Proof. unfold getitem. destruct (_ !! _); [apply keeps_ret | apply keeps_raise]. Qed.

Lemma keeps_os_getattr name : keeps_files (os_getattr name).
Proof.
  unfold os_getattr. case_bool_decide; [apply keeps_ret | apply keeps_raise].
Qed.

Ltac keeps_step :=
  first
    [ apply keeps_bind; [| intros ?]
    | apply keeps_ret | apply keeps_raise | apply keeps_of_outcome
    | apply keeps_logger_info | apply keeps_emit | apply keeps_np_random
    | apply keeps_get_self | apply keeps_modify_self
    | apply keeps_modify_self_rng
    | apply keeps_shape_1 | apply keeps_getitem | apply keeps_os_getattr
    | apply keeps_try_except | apply keeps_try_except_Exception; [| intros ?]
    | match goal with
      | |- keeps_files (match ?x with _ => _ end) => destruct x
      end ].

Lemma keeps_fit a : keeps_files (fit' a).
Proof.
  unfold fit, get_config_space, adapt_search_space, searcher_run,
    searcher_env, update_searcher_env.
  repeat keeps_step.
Qed.

Lemma sparse_has_no_second_dimension x :
  issparse x = true → np_shape (np_array x) !! 1%nat = None.
Proof. by destruct x. Qed.

Ltac open_fit H :=
  let tr := fresh "tr" in
  let Hcalls := fresh "Hcalls" in
  let Hshape := fresh "Hshape" in
  destruct (fit_inv _ _ _ _ _ _ _ _ _ _ _ _ _ H) as (tr & Hcalls & Hshape);
  rewrite (new_calls_app _ _ _ Hcalls) in *;
  destruct Hshape; cbn [In] in *.

(** X8: whatever [X] is, the only definition file [fit] reads is the dense
    one, [model_config/1_0.pcs]: [fit] converts [X] with [np.array] before
    it asks [get_config_space], and the result of [np.array] is never a
    sparse matrix. *)
Theorem fit_reads_dense_definition a self w o self' w' :
  fit' a (self, w) = (o, (self', w')) →
  ∀ path, In (pcs_read_call path) (new_calls w w') →
    path = package_dir +:+ "/model_config/1_0.pcs".
Proof.
  intros H path Hin. open_fit H; intuition (try discriminate);
    match goal with Hk : pcs_read_call _ = pcs_read_call _ |- _ =>
      by injection Hk as <- end.
Qed.

(** X9: [fit] never starts a search on input whose array form has fewer
    than two dimensions, such as a flat list or a scipy sparse matrix
    (which [np.array] wraps in an array without dimensions): the call
    raises, and when it got as far as the adaptation the exception is the
    [IndexError] of [adapt_search_space]. *)
Theorem fit_needs_two_dimensions a self w o self' w' :
  fit' a (self, w) = (o, (self', w')) →
  issparse (X a) = true ∨ np_shape (np_array (X a)) !! 1%nat = None →
  (∃ e, o = Raise e) ∧
  (∀ n i, ¬ In (run_call n i) (new_calls w w')) ∧
  (In adapt_search_space_call (new_calls w w') →
   o = Raise (IndexError "tuple index out of range")).
Proof.
  intros H Hx.
  assert (np_shape (np_array (X a)) !! 1%nat = None) as Hnone
    by (destruct Hx; [by apply sparse_has_no_second_dimension | done]).
  destruct (fit_progress _ _ _ _ _ _ H)
    as [(_ & _ & _ & Hna & Hnr & He)
       | [(_ & _ & _ & _ & Hnr & ->) | (Hsome & _)]].
  - repeat split; [done | done | by intros ?].
  - repeat split; [by eexists | done].
  - rewrite Hnone in Hsome. by destruct Hsome.
Qed.

(** X10: the searcher [fit] constructs gets the time budget, the seed and
    the verbosity given to the constructor, the directory [mosaic] under
    the execution directory, the PUCT policy with constant 1.3 set by the
    constructor, and the environment constructed just before; the
    argument [policy_arg] of [fit] plays no part. *)
Theorem fit_searcher_arguments args w0 self a w o self' w' :
  (__init__ args w0).1 = Ok self →
  fit' a (self, w) = (o, (self', w')) →
  ∀ skw, In (SearchML_call skw) (new_calls w w') →
    search_time_budget skw = arg_time_budget args ∧
    search_seed skw = arg_seed args ∧
    search_verbose skw = arg_verbose args ∧
    search_exec_dir skw = os_path_join (exec_dir self) "mosaic" ∧
    search_policy_arg skw !! "policy_name" = Some (VStr "puct") ∧
    search_policy_arg skw !! "c" = Some (VFloat (13 # 10)) ∧
    ∃ kw, In (SklearnEnv_call kw) (new_calls w w') ∧
          SklearnEnv_new kw = Ok (environment skw).
Proof.
  intros Hinit H skw Hin.
  destruct (init_ok_inv _ _ _ Hinit) as (_ & _ & sf & Hself).
  open_fit H; intuition (try discriminate);
    match goal with Hk : SearchML_call _ = SearchML_call _ |- _ =>
      injection Hk as <- end;
    subst; cbn [search_kwargs_of search_time_budget search_seed
                search_verbose search_exec_dir search_policy_arg environment
                init_object time_budget seed verbose mosaic_dir exec_dir
                policy_arg];
    repeat split; eauto.
Qed.

(** X11: the evaluation closure [fit] builds holds the array forms of [X]
    and [y], the scoring function chosen at construction, the categorical
    features as given and the object's seed, and the environment gets the
    space read from the definition file.  The test split goes in only when
    [X_test] is given: with [X_test] left at [None] the closure's
    [test_data] is empty even if [y_test] was passed. *)
Theorem fit_evaluation_closure a self w o self' w' :
  fit' a (self, w) = (o, (self', w')) →
  ∀ kw, In (SklearnEnv_call kw) (new_calls w w') →
    ev_X (eval_func kw) = np_array (X a) ∧
    ev_y (eval_func kw) = np_array (y a) ∧
    ev_score_func (eval_func kw) = scoring_func self ∧
    ev_seed (eval_func kw) = seed self ∧
    categorical_features a = Some (ev_categorical_features (eval_func kw)) ∧
    pcs_read dense_pcs' = Ok (config_space kw) ∧
    (X_test a = PyNone → ev_test_data (eval_func kw) = ∅) ∧
    (X_test a ≠ PyNone →
     ev_test_data (eval_func kw) !! "X_test" = Some (np_array (X_test a)) ∧
     ev_test_data (eval_func kw) !! "y_test" = Some (np_array (y_test a))).
Proof.
  intros H kw Hin.
  assert (∀ cf cs, categorical_features a = Some cf →
            pcs_read dense_pcs' = Ok cs → kw = env_kwargs_of self a cf cs →
            ev_X (eval_func kw) = np_array (X a) ∧
            ev_y (eval_func kw) = np_array (y a) ∧
            ev_score_func (eval_func kw) = scoring_func self ∧
            ev_seed (eval_func kw) = seed self ∧
            categorical_features a = Some (ev_categorical_features (eval_func kw)) ∧
            pcs_read dense_pcs' = Ok (config_space kw) ∧
            (X_test a = PyNone → ev_test_data (eval_func kw) = ∅) ∧
            (X_test a ≠ PyNone →
             ev_test_data (eval_func kw) !! "X_test" = Some (np_array (X_test a)) ∧
             ev_test_data (eval_func kw) !! "y_test" = Some (np_array (y_test a))))
    as Hgoal.
  { intros cf cs Hcf Hcs ->.
    cbn [env_kwargs_of eval_func ev_X ev_y ev_score_func ev_seed
         ev_categorical_features config_space ev_test_data].
    repeat split; try done.
    - intros Hn. unfold prepared_test. by rewrite Hn.
    - unfold prepared_test. destruct (X_test a); done.
    - unfold prepared_test. destruct (X_test a); done. }
  open_fit H; intuition (try discriminate);
    match goal with Hk : SklearnEnv_call _ = SklearnEnv_call _ |- _ =>
      injection Hk as <- end;
    eapply Hgoal; eauto.
Qed.

(** X12: [fit] changes nothing of the object but [searcher] and
    [problem_dependant_parameter], and does not itself create a directory
    or a file or attach a handler. *)
Theorem fit_frame a self w o self' w' :
  fit' a (self, w) = (o, (self', w')) →
  settings self' = settings self ∧
  dirs w' = dirs w ∧ files w' = files w ∧ handlers w' = handlers w.
Proof.
  intros H. split.
  - destruct (fit_inv _ _ _ _ _ _ _ _ _ _ _ _ _ H) as (tr & _ & Hshape).
    destruct Hshape; by subst.
  - pose proof (keeps_fit a self w) as Hk. by rewrite H in Hk.
Qed.

(** X13: [fit] draws nothing from the global generator itself: unless the
    search run was started, the generator is in the state it was in before
    the call. *)
Theorem fit_generator_untouched a self w o self' w' :
  fit' a (self, w) = (o, (self', w')) →
  (∀ n i, ¬ In (run_call n i) (new_calls w w')) →
  np_random w' = np_random w.
Proof.
  intros H Hnr.
  destruct (fit_progress _ _ _ _ _ _ H)
    as [(_ & Hr & _) | [(_ & _ & Hr & _) | (_ & _ & Hin)]]; [done | done |].
  by apply Hnr in Hin.
Qed.

End MoreFacts.

From Stdlib Require Import Sorted.

(** ** The remaining methods *)

(** X14: the indices [fit] logs are exactly the positions of the entries
    equal to "categorical", counted from 0 and in increasing order. *)
Theorem categorical_indices_spec (l : list string) (k : nat) :
  (∀ i, In i (categorical_indices k l) ↔
        ∃ j, i = (k + j)%nat ∧ l !! j = Some "categorical") ∧
  StronglySorted lt (categorical_indices k l).
Proof.
  revert k. induction l as [|x l IH]; intros k; cbn [categorical_indices].
  - split; [|constructor]. intros i. split; [done|].
    by intros (j & _ & Hj).
  - destruct (IH (S k)) as [IHin IHsorted]. split.
    + intros i. rewrite in_app_iff, IHin. split.
      * intros [Hhere | (j & -> & Hj)].
        -- case_bool_decide; [|done]. destruct Hhere as [<- | []].
           exists 0%nat. split; [lia | by subst].
        -- exists (S j). split; [lia | done].
      * intros ([|j] & -> & Hj).
        -- left. injection Hj as ->. rewrite bool_decide_eq_true_2 by done.
           left. lia.
        -- right. exists j. split; [lia | done].
    + case_bool_decide; cbn [app]; [|done].
      constructor; [done|]. apply Forall_forall. intros i Hi.
      apply list_elem_of_In, IHin in Hi. destruct Hi as (j & -> & _). lia.
Qed.

Section MethodFacts.

Variable package_dir : string.
Variable pcs_read : string → outcome ConfigurationSpace.
Variable SklearnEnv_new : env_kwargs → outcome SklearnEnv.
Variable SearchML_new : search_kwargs → outcome SearchML.
Variable OneHotEncoder_fit_transform : pyobj → outcome pyobj.
Variable MultinomialNB_fit : pyobj → pyobj → outcome unit.
Variable SearchML_run :
  SearchML → rng_state → Z → list configuration →
  outcome unit * SearchML * rng_state.
Variable History : Type.
Variable TestResult : Type.
Variable SearchML_get_history_run : SearchML → outcome History * SearchML.
Variable SearchML_test_performance :
  SearchML → pyobj → pyobj → pyobj → pyobj → limited_test_function →
  option (list string) → outcome TestResult * SearchML.
Abbreviation adapt_search_space' :=
  (adapt_search_space OneHotEncoder_fit_transform MultinomialNB_fit).
Abbreviation fit' :=
  (fit package_dir pcs_read SklearnEnv_new SearchML_new
       OneHotEncoder_fit_transform MultinomialNB_fit SearchML_run).
Abbreviation get_run_history' := (get_run_history History SearchML_get_history_run).
Abbreviation get_test_performance' :=
  (get_test_performance TestResult SearchML_test_performance).
(** X15: an object on which no [fit] has constructed a searcher cannot
    answer.  [get_run_history] raises [AttributeError] and changes nothing;
    [get_test_performance] prints its line and then raises
    [AttributeError], and changes nothing else; [adapt_search_space], on
    data with two dimensions, raises [AttributeError] as well, after it has
    set [problem_dependant_parameter] on the object: that, and the mark of
    the call in the trace, is all it has changed. *)
Theorem methods_before_fit args w0 self w :
  (__init__ args w0).1 = Ok self →
  get_run_history' (self, w) =
    (Raise (AttributeError "'NoneType' object has no attribute 'get_history_run'"),
     (self, w)) ∧
  (∀ x y cf x_test y_test out,
     get_test_performance' x y cf x_test y_test ((self, w), out) =
     (Raise (AttributeError "'NoneType' object has no attribute 'test_performance'"),
      ((self, w), out ++ ["Get test performance ..."]))) ∧
  (∀ x y n, np_shape x !! 1%nat = Some n →
     adapt_search_space' x y (self, w) =
     (Raise (AttributeError "'NoneType' object has no attribute 'mcts'"),
      (set_problem_dependant_parameter the_problem_dependant_parameter self,
       add_call adapt_search_space_call w))).
Proof.
  intros Hinit.
  destruct (init_ok_inv _ _ _ Hinit) as (_ & _ & sf & ->).
  split; [reflexivity|]. split; [reflexivity|].
  intros x y n Hx. unfold adapt_search_space, update_searcher_env, shape_1.
  rewrite Hx. monad_simpl.
  destruct (OneHotEncoder_fit_transform x) as [t|e]; monad_simpl;
    [destruct (np_shape t !! 1%nat); monad_simpl|]; reflexivity.
Qed.

(** X16: once a call of [fit] has constructed the searcher, the object
    keeps it, also when that call went on to raise in the adaptation or in
    the search run; [get_run_history] then answers with what the searcher's
    [get_history_run] gives. *)
Theorem fit_keeps_searcher_for_history a self w o self' w' :
  fit' a (self, w) = (o, (self', w')) →
  ∀ skw s, In (SearchML_call skw) (new_calls w w') →
    SearchML_new skw = Ok s →
    ∃ s', searcher self' = Some s' ∧
          ∀ w'', (get_run_history' (self', w'')).1 =
                 (SearchML_get_history_run s').1.
Proof.
  intros H skw s Hin Hnew.
  destruct (fit_progress _ _ _ _ _ _ _ _ _ _ _ _ _ H)
    as [(_ & _ & Hno & _) | [(_ & [s' Hs'] & _) | (_ & [s' Hs'] & _)]].
  - by apply Hno in Hnew.
  - exists s'. split; [done|]. intros w''.
    unfold get_run_history. monad_simpl. rewrite Hs'.
    by destruct (SearchML_get_history_run s') as [[h|e] s''].
  - exists s'. split; [done|]. intros w''.
    unfold get_run_history. monad_simpl. rewrite Hs'.
    by destruct (SearchML_get_history_run s') as [[h|e] s''].
Qed.

(** X17: after a [fit], [get_test_performance] runs the test function
    under the memory limit given to the constructor and three times the
    per-evaluation time limit given to the constructor, prints one line,
    and hands back what the searcher's [test_performance] gives. *)
Theorem get_test_performance_limits args w0 self0 a w o self w' s
    x y cf x_test y_test out :
  (__init__ args w0).1 = Ok self0 →
  fit' a (self0, w) = (o, (self, w')) →
  searcher self = Some s →
  let test_func :=
    {| tf_mem_in_mb := arg_memory_limit args;
       tf_cpu_time_in_s := arg_time_limit_for_evaluation args * 3 |} in
  let r := get_test_performance' x y cf x_test y_test ((self, w'), out) in
  r.1 = (SearchML_test_performance s x y x_test y_test test_func cf).1 ∧
  r.2.2 = out ++ ["Get test performance ..."] ∧
  r.2.1.2 = w'.
Proof.
  intros Hinit H Hs test_func r. subst test_func r.
  destruct (init_ok_inv _ _ _ Hinit) as (_ & _ & sf & Hself).
  assert (settings self = settings self0) as Hset.
  { destruct (fit_inv _ _ _ _ _ _ _ _ _ _ _ _ _ H) as (tr & _ & Hshape).
    destruct Hshape; by subst. }
  apply settings_limits in Hset as (Hm & Ht & _).
  unfold get_test_performance, in_proc, print. monad_simpl.
  rewrite Hs, Hm, Ht, Hself.
  cbn [memory_limit time_limit_for_evaluation init_object].
  by destruct (SearchML_test_performance _ _ _ _ _ _ _) as [[t|e] s''].
Qed.

End MethodFacts.

Section EnsembleFacts.

Variable train_test_split :
  pyobj → pyobj → Q → Z → outcome (pyobj * pyobj * pyobj * pyobj).

Abbreviation prepare_ensemble' := (prepare_ensemble train_test_split).

Lemma prepare_ensemble_dir_exists x y st :
  let dir := os_path_join (exec_dir (ens_proc st).1) "ensemble_files" in
  let st' := (prepare_ensemble' x y st).2 in
  path_exists dir (ens_proc st').2 = true ∧
  exec_dir (ens_proc st').1 = exec_dir (ens_proc st).1.
Proof.
  destruct st as [[self w] ed npy]. cbn [ens_proc fst snd].
  unfold prepare_ensemble, in_ensemble_world, os_mkdir, np_save.
  monad_simpl. cbn [ens_proc set_ensemble_dir ensemble_dir npy_files].
  destruct (path_exists _ w) eqn:Hex; monad_simpl.
  - cbn [ens_proc snd fst]. done.
  - destruct (train_test_split x y _ (seed self)) as [[[[a b] c] d]|e];
      monad_simpl; cbn [ens_proc snd fst]; (split; [|done]);
      unfold path_exists; apply bool_decide_eq_true;
      cbn [dirs files add_file add_dirs]; set_solver.
Qed.

(** X18: [prepare_ensemble] works once at most.  Whatever a first call
    did (created the directory, found it there, or failed in the split
    after creating it), a call that follows it raises [FileExistsError] for
    the directory [ensemble_files] under the execution directory. *)
Theorem prepare_ensemble_again x y x' y' st :
  (prepare_ensemble' x' y' (prepare_ensemble' x y st).2).1 =
  Raise (FileExistsError
           (os_path_join (exec_dir (ens_proc st).1) "ensemble_files")).
Proof.
  destruct (prepare_ensemble_dir_exists x y st) as [Hex Hdir].
  destruct ((prepare_ensemble' x y st).2) as [[self1 w1] ed1 npy1].
  cbn [ens_proc fst snd] in *.
  unfold prepare_ensemble, in_ensemble_world, os_mkdir.
  monad_simpl. cbn [ens_proc set_ensemble_dir ensemble_dir npy_files].
  rewrite Hdir, Hex. reflexivity.
Qed.

Lemma append_inj_r (p q r : string) : p +:+ q = p +:+ r → q = r.
Proof.
  induction p as [|c p IH]; cbn; [done|]. intros [= Hq]. by apply IH.
Qed.

Lemma ensemble_paths_differ dir :
  os_path_join dir "y_valid.npy" ≠ os_path_join dir "y_test.npy".
Proof.
  unfold os_path_join. cbn [String.append].
  destruct (_ || _); intros Heq.
  - by apply append_inj_r in Heq.
  - by do 2 apply append_inj_r in Heq.
Qed.

(** X19: where the directory [ensemble_files] is not there yet and the
    split goes through, [prepare_ensemble] creates it under the execution
    directory, remembers it as [ensemble_dir], and saves two arrays in it:
    [y_valid.npy] holds the test part of the labels from a split with test
    size 0.329 seeded with the object's seed, and [y_test.npy] holds the
    labels it was called with, whole.  The object itself is unchanged. *)
Theorem prepare_ensemble_saves x y st x_train x_test y_train y_test :
  let self := (ens_proc st).1 in
  let dir := os_path_join (exec_dir self) "ensemble_files" in
  path_exists dir (ens_proc st).2 = false →
  train_test_split x y (329 # 1000)%Q (seed self) =
    Ok (x_train, x_test, y_train, y_test) →
  let r := prepare_ensemble' x y st in
  r.1 = Ok tt ∧
  (ens_proc r.2).1 = self ∧
  ensemble_dir r.2 = Some dir ∧
  dir ∈ dirs (ens_proc r.2).2 ∧
  os_path_join dir "y_valid.npy" ∈ files (ens_proc r.2).2 ∧
  os_path_join dir "y_test.npy" ∈ files (ens_proc r.2).2 ∧
  npy_files r.2 !! os_path_join dir "y_valid.npy" = Some y_test ∧
  npy_files r.2 !! os_path_join dir "y_test.npy" = Some y.
Proof.
  intros self dir Hex Hsplit r. subst self dir r.
  destruct st as [[self0 w] ed npy]. cbn [ens_proc fst snd] in *.
  unfold prepare_ensemble, in_ensemble_world, os_mkdir, np_save.
  monad_simpl. cbn [ens_proc set_ensemble_dir ensemble_dir npy_files].
  rewrite Hex. monad_simpl. rewrite Hsplit. monad_simpl.
  cbn [ens_proc ensemble_dir npy_files fst snd dirs files add_file add_dirs].
  repeat split; try set_solver.
  - rewrite lookup_insert_ne
      by (intros Heq; symmetry in Heq; by apply ensemble_paths_differ in Heq).
    apply lookup_insert_eq.
  - apply lookup_insert_eq.
Qed.

End EnsembleFacts.

(** ** The further properties on concrete runs *)

Ltac not_in_list := vm_compute; intuition discriminate.

Lemma init_same_exec_dir_again_witness :
  (__init__ (Demo.with_exec_dir "./work/" "accuracy")
     (__init__ (Demo.with_exec_dir "work" "f1") Demo.world0).2).1 =
  Raise (FileExistsError "./work/").
Proof.
  apply (init_same_exec_dir_again (Demo.with_exec_dir "work" "f1")
           (Demo.with_exec_dir "./work/" "accuracy") Demo.world0
           "work" "./work/" "/home/user/work");
    first [reflexivity | vm_compute; reflexivity].
Defined.

Lemma init_unknown_name_leaves_directory_witness :
  ∃ dir,
    (__init__ (Demo.with_exec_dir "work" "f1") Demo.world0).1 =
      Raise (Exception (unknown_score_message "f1")) ∧
    path_exists dir Demo.world0 = false ∧
    dir ∈ dirs (__init__ (Demo.with_exec_dir "work" "f1") Demo.world0).2 ∧
    log_path dir ∈ files (__init__ (Demo.with_exec_dir "work" "f1") Demo.world0).2 ∧
    FileHandler (log_path dir)
      ∈ handlers (__init__ (Demo.with_exec_dir "work" "f1") Demo.world0).2.
Proof.
  apply (init_unknown_name_leaves_directory
           (Demo.with_exec_dir "work" "f1") Demo.world0).
  - reflexivity.
  - intros d [= <-]. exists "/home/user/work". split; vm_compute; reflexivity.
  - intros [H | [H | H]]; discriminate.
Defined.

Lemma init_temporary_dirs_differ_witness :
  let self := init_object default_init_args "/tmp/tmp" roc_auc_score in
  let self' := init_object More.second "/tmp/tmp0" roc_auc_score in
  exec_dir self' ≠ exec_dir self ∧
  exec_dir self ∈ dirs (__init__ More.second (__init__ default_init_args Demo.world0).2).2 ∧
  log_path (exec_dir self)
    ∈ files (__init__ More.second (__init__ default_init_args Demo.world0).2).2.
Proof.
  apply (init_temporary_dirs_differ default_init_args More.second Demo.world0).
  - reflexivity.
  - reflexivity.
  - vm_compute. reflexivity.
  - vm_compute. reflexivity.
Defined.

Lemma init_handlers_accumulate_witness :
  let self := init_object default_init_args "/tmp/tmp" roc_auc_score in
  let self' := init_object (Demo.with_exec_dir "work" "accuracy") "work" accuracy_score in
  let w'' := (__init__ (Demo.with_exec_dir "work" "accuracy")
                (__init__ default_init_args Demo.world0').2).2 in
  (∀ h, h ∈ handlers Demo.world0' → h ∈ handlers w'') ∧
  FileHandler (log_path (exec_dir self)) ∈ handlers w'' ∧
  FileHandler (log_path (exec_dir self')) ∈ handlers w'' ∧
  (arg_verbose (Demo.with_exec_dir "work" "accuracy") ≠ 0 →
   StreamHandler_stdout ∈ handlers w'').
Proof.
  apply (init_handlers_accumulate default_init_args
           (Demo.with_exec_dir "work" "accuracy") Demo.world0').
  - vm_compute. reflexivity.
  - vm_compute. reflexivity.
Defined.

Lemma adapt_search_space_low_dimension_witness :
  adapt_search_space More.OneHotEncoder_fit_transform More.MultinomialNB_fit
    (ndarray [3]%nat [1; 2; 3]) (ndarray [3]%nat [0; 1; 0])
    (More.self_with_searcher, Demo.world1) =
  (Raise (IndexError "tuple index out of range"),
   (set_problem_dependant_parameter the_problem_dependant_parameter
      More.self_with_searcher,
    add_call adapt_search_space_call Demo.world1)).
Proof.
  apply (adapt_search_space_low_dimension More.OneHotEncoder_fit_transform
           More.MultinomialNB_fit).
  reflexivity.
Defined.

Lemma adapt_search_space_records_witness :
  ∃ self' s' d,
    adapt_search_space More.OneHotEncoder_fit_transform More.MultinomialNB_fit
      (X Demo.args0) (y Demo.args0) (More.self_with_searcher, Demo.world1) =
      (Ok tt, (self', add_call adapt_search_space_call Demo.world1)) ∧
    searcher self' = Some s' ∧
    settings self' = settings More.self_with_searcher ∧
    problem_dependant_parameter self' = Some the_problem_dependant_parameter ∧
    problem_dependant_param (env (mcts s')) = Some the_problem_dependant_parameter ∧
    problem_dependant_value (env (mcts s')) = Some d ∧
    bestconfig (env (mcts s')) = bestconfig (env (mcts More.searcher0)) ∧
    d !! "no_encoding" = Some (VInt (Z.of_nat 2)) ∧
    d !! "one_hot_encoding" =
      Some (VInt (Z.of_nat
        match More.OneHotEncoder_fit_transform (X Demo.args0) with
        | Ok t => default 2%nat (np_shape t !! 1%nat)
        | Raise _ => 2%nat
        end)) ∧
    d !! "is_positive" =
      Some (VBool match More.MultinomialNB_fit (X Demo.args0) (y Demo.args0) with
                  | Ok _ => true
                  | Raise _ => false
                  end).
Proof.
  apply (adapt_search_space_records More.OneHotEncoder_fit_transform
           More.MultinomialNB_fit (X Demo.args0) (y Demo.args0)
           More.self_with_searcher Demo.world1 More.searcher0 2%nat);
    reflexivity.
Defined.

Lemma fit_reads_dense_definition_witness :
  issparse (X More.sparse_args) = true ∧
  In (pcs_read_call "/opt/mosaic_ml/model_config/1_0.pcs")
     (new_calls Demo.world1 More.ran_sparse.2.2) ∧
  "/opt/mosaic_ml/model_config/1_0.pcs" =
    Demo.package_dir +:+ "/model_config/1_0.pcs".
Proof.
  split; [reflexivity|].
  assert (In (pcs_read_call "/opt/mosaic_ml/model_config/1_0.pcs")
            (new_calls Demo.world1 More.ran_sparse.2.2)) as Hin by in_list.
  split; [exact Hin|].
  apply (fit_reads_dense_definition Demo.package_dir Demo.pcs_read
           Demo.SklearnEnv_new Demo.SearchML_new
           Demo.OneHotEncoder_fit_transform Demo.MultinomialNB_fit
           Demo.SearchML_run More.sparse_args Demo.self0 Demo.world1
           More.ran_sparse.1 More.ran_sparse.2.1 More.ran_sparse.2.2).
  - vm_compute. reflexivity.
  - exact Hin.
Defined.

Lemma fit_needs_two_dimensions_witness :
  (∃ e, More.ran_sparse.1 = Raise e) ∧
  (∀ n i, ¬ In (run_call n i) (new_calls Demo.world1 More.ran_sparse.2.2)) ∧
  (In adapt_search_space_call (new_calls Demo.world1 More.ran_sparse.2.2) →
   More.ran_sparse.1 = Raise (IndexError "tuple index out of range")).
Proof.
  apply (fit_needs_two_dimensions Demo.package_dir Demo.pcs_read
           Demo.SklearnEnv_new Demo.SearchML_new
           Demo.OneHotEncoder_fit_transform Demo.MultinomialNB_fit
           Demo.SearchML_run More.sparse_args Demo.self0 Demo.world1
           More.ran_sparse.1 More.ran_sparse.2.1 More.ran_sparse.2.2).
  - vm_compute. reflexivity.
  - left. reflexivity.
Defined.

Lemma fit_searcher_arguments_witness :
  ∃ skw, In (SearchML_call skw) (new_calls Demo.world1 Demo.ran.2.2) ∧
    search_time_budget skw = 3600 ∧
    search_seed skw = 1 ∧
    search_verbose skw = 0 ∧
    search_exec_dir skw = os_path_join (exec_dir Demo.self0) "mosaic" ∧
    search_policy_arg skw !! "policy_name" = Some (VStr "puct") ∧
    search_policy_arg skw !! "c" = Some (VFloat (13 # 10)) ∧
    ∃ kw, In (SklearnEnv_call kw) (new_calls Demo.world1 Demo.ran.2.2) ∧
          Demo.SklearnEnv_new kw = Ok (environment skw).
Proof.
  assert (∃ skw, In (SearchML_call skw) (new_calls Demo.world1 Demo.ran.2.2))
    as [skw Hin]
    by (vm_compute; eexists; right; right; left; reflexivity).
  exists skw. split; [exact Hin|].
  apply (fit_searcher_arguments Demo.package_dir Demo.pcs_read
           Demo.SklearnEnv_new Demo.SearchML_new
           Demo.OneHotEncoder_fit_transform Demo.MultinomialNB_fit
           Demo.SearchML_run default_init_args Demo.world0 Demo.self0
           Demo.args0 Demo.world1 Demo.ran.1 Demo.ran.2.1 Demo.ran.2.2).
  - vm_compute. reflexivity.
  - vm_compute. reflexivity.
  - exact Hin.
Defined.

Lemma fit_evaluation_closure_witness :
  ∃ kw, In (SklearnEnv_call kw) (new_calls Demo.world1 More.ran_sparse.2.2) ∧
    ev_X (eval_func kw) = np_array (X More.sparse_args) ∧
    ev_y (eval_func kw) = np_array (y More.sparse_args) ∧
    ev_score_func (eval_func kw) = scoring_func Demo.self0 ∧
    ev_seed (eval_func kw) = seed Demo.self0 ∧
    categorical_features More.sparse_args =
      Some (ev_categorical_features (eval_func kw)) ∧
    Demo.pcs_read (dense_pcs Demo.package_dir) = Ok (config_space kw) ∧
    (X_test More.sparse_args = PyNone → ev_test_data (eval_func kw) = ∅) ∧
    (X_test More.sparse_args ≠ PyNone →
     ev_test_data (eval_func kw) !! "X_test" =
       Some (np_array (X_test More.sparse_args)) ∧
     ev_test_data (eval_func kw) !! "y_test" =
       Some (np_array (y_test More.sparse_args))).
Proof.
  assert (∃ kw, In (SklearnEnv_call kw) (new_calls Demo.world1 More.ran_sparse.2.2))
    as [kw Hin]
    by (vm_compute; eexists; right; left; reflexivity).
  exists kw. split; [exact Hin|].
  apply (fit_evaluation_closure Demo.package_dir Demo.pcs_read
           Demo.SklearnEnv_new Demo.SearchML_new
           Demo.OneHotEncoder_fit_transform Demo.MultinomialNB_fit
           Demo.SearchML_run More.sparse_args Demo.self0 Demo.world1
           More.ran_sparse.1 More.ran_sparse.2.1 More.ran_sparse.2.2).
  - vm_compute. reflexivity.
  - exact Hin.
Defined.

Lemma fit_frame_witness :
  settings Demo.ran.2.1 = settings Demo.self0 ∧
  dirs Demo.ran.2.2 = dirs Demo.world1 ∧
  files Demo.ran.2.2 = files Demo.world1 ∧
  handlers Demo.ran.2.2 = handlers Demo.world1.
Proof.
  apply (fit_frame Demo.package_dir Demo.pcs_read
           Demo.SklearnEnv_new Demo.SearchML_new
           Demo.OneHotEncoder_fit_transform Demo.MultinomialNB_fit
           Demo.SearchML_run Demo.args0 Demo.self0 Demo.world1 Demo.ran.1
           Demo.ran.2.1 Demo.ran.2.2).
  vm_compute. reflexivity.
Defined.

Lemma fit_generator_untouched_witness :
  np_random More.ran_sparse.2.2 = np_random Demo.world1.
Proof.
  apply (fit_generator_untouched Demo.package_dir Demo.pcs_read
           Demo.SklearnEnv_new Demo.SearchML_new
           Demo.OneHotEncoder_fit_transform Demo.MultinomialNB_fit
           Demo.SearchML_run More.sparse_args Demo.self0 Demo.world1
           More.ran_sparse.1 More.ran_sparse.2.1 More.ran_sparse.2.2).
  - vm_compute. reflexivity.
  - intros n i. not_in_list.
Defined.

Lemma methods_before_fit_witness :
  get_run_history More.History More.SearchML_get_history_run
    (Demo.self0, Demo.world1) =
    (Raise (AttributeError "'NoneType' object has no attribute 'get_history_run'"),
     (Demo.self0, Demo.world1)) ∧
  (∀ x y cf x_test y_test out,
     get_test_performance (Z * Z) More.SearchML_test_performance
       x y cf x_test y_test ((Demo.self0, Demo.world1), out) =
     (Raise (AttributeError "'NoneType' object has no attribute 'test_performance'"),
      ((Demo.self0, Demo.world1), out ++ ["Get test performance ..."]))) ∧
  (∀ x y n, np_shape x !! 1%nat = Some n →
     adapt_search_space More.OneHotEncoder_fit_transform More.MultinomialNB_fit
       x y (Demo.self0, Demo.world1) =
     (Raise (AttributeError "'NoneType' object has no attribute 'mcts'"),
      (set_problem_dependant_parameter the_problem_dependant_parameter Demo.self0,
       add_call adapt_search_space_call Demo.world1))).
Proof.
  apply (methods_before_fit More.OneHotEncoder_fit_transform
           More.MultinomialNB_fit More.History (Z * Z)%type
           More.SearchML_get_history_run More.SearchML_test_performance
           default_init_args Demo.world0).
  vm_compute. reflexivity.
Defined.

Lemma fit_keeps_searcher_for_history_witness :
  Demo.ran_aborted.1 = Raise Demo.search_aborted ∧
  ∀ skw s, In (SearchML_call skw) (new_calls Demo.world1 Demo.ran_aborted.2.2) →
    Demo.SearchML_new skw = Ok s →
    ∃ s', searcher Demo.ran_aborted.2.1 = Some s' ∧
          ∀ w'', (get_run_history More.History More.SearchML_get_history_run
                    (Demo.ran_aborted.2.1, w'')).1 =
                 (More.SearchML_get_history_run s').1.
Proof.
  split; [vm_compute; reflexivity|].
  apply (fit_keeps_searcher_for_history Demo.package_dir Demo.pcs_read
           Demo.SklearnEnv_new Demo.SearchML_new
           Demo.OneHotEncoder_fit_transform Demo.MultinomialNB_fit
           Demo.SearchML_run_aborted More.History
           More.SearchML_get_history_run Demo.args0 Demo.self0 Demo.world1
           Demo.ran_aborted.1 Demo.ran_aborted.2.1 Demo.ran_aborted.2.2).
  vm_compute. reflexivity.
Defined.

Lemma get_test_performance_limits_witness :
  let test_func := {| tf_mem_in_mb := 3024; tf_cpu_time_in_s := 300 * 3 |} in
  let r := get_test_performance (Z * Z) More.SearchML_test_performance
             (X Demo.args0) (y Demo.args0) None PyNone PyNone
             ((Demo.ran.2.1, Demo.ran.2.2), []) in
  r.1 = (More.SearchML_test_performance More.fitted_searcher
           (X Demo.args0) (y Demo.args0) PyNone PyNone test_func None).1 ∧
  r.2.2 = [] ++ ["Get test performance ..."] ∧
  r.2.1.2 = Demo.ran.2.2.
Proof.
  apply (get_test_performance_limits Demo.package_dir Demo.pcs_read
           Demo.SklearnEnv_new Demo.SearchML_new
           Demo.OneHotEncoder_fit_transform Demo.MultinomialNB_fit
           Demo.SearchML_run (Z * Z)%type More.SearchML_test_performance
           default_init_args Demo.world0 Demo.self0 Demo.args0 Demo.world1
           Demo.ran.1 Demo.ran.2.1 Demo.ran.2.2 More.fitted_searcher
           (X Demo.args0) (y Demo.args0) None PyNone PyNone []).
  - vm_compute. reflexivity.
  - vm_compute. reflexivity.
  - vm_compute. reflexivity.
Defined.

Lemma prepare_ensemble_saves_witness :
  let dir := os_path_join (exec_dir Demo.self0) "ensemble_files" in
  let r := prepare_ensemble More.train_test_split
             (X Demo.args0) (y Demo.args0) More.ensemble0 in
  r.1 = Ok tt ∧
  (ens_proc r.2).1 = Demo.self0 ∧
  ensemble_dir r.2 = Some dir ∧
  dir ∈ dirs (ens_proc r.2).2 ∧
  os_path_join dir "y_valid.npy" ∈ files (ens_proc r.2).2 ∧
  os_path_join dir "y_test.npy" ∈ files (ens_proc r.2).2 ∧
  npy_files r.2 !! os_path_join dir "y_valid.npy" = Some (ndarray [1]%nat [1]) ∧
  npy_files r.2 !! os_path_join dir "y_test.npy" = Some (y Demo.args0).
Proof.
  apply (prepare_ensemble_saves More.train_test_split
           (X Demo.args0) (y Demo.args0) More.ensemble0
           (X Demo.args0) (X Demo.args0) (y Demo.args0)).
  - vm_compute. reflexivity.
  - reflexivity.
Defined.
